(** * Vinted deal finder: the listing synchronisation core of [app.py]

    A shallow embedding of [fetch_vinted_items], [load_favorites],
    [save_favorite] and [detect_new_items], and the properties of them that
    the specification states.

    Python code that raises, talks to the network, shows a message or touches
    one of the two files is a computation in the monad [Py]: a function from
    the [World] to an outcome ([Ok] or [Raise]) and the world afterwards.
    What a raising computation did before it raised stays done. *)

From Stdlib Require Import ZArith String Lia.
From stdpp Require Import base option list gmap strings.

Local Open Scope string_scope.
Local Open Scope list_scope.
Local Open Scope Z_scope.

(** ** Data *)

(** The exceptions the modelled code can raise: a missing dictionary key or
    table column, a date the parser rejects, a file that is not there, a
    snapshot file with nothing to parse. *)
Inductive exn :=
| KeyError (key : string)
| ValueError (text : string)
| FileNotFoundError (path : string)
| EmptyDataError.

Inductive result (A : Type) :=
| Ok (a : A)
| Raise (e : exn).
Arguments Ok {A} a.
Arguments Raise {A} e.

(** A converted date: pandas' [NaT] or a time stamp. *)
Inductive datetime :=
| NaT
| Stamp (ns : Z).

(** A cell of the [Created] column: the upstream text as appended by the
    loop, or a date once [pd.to_datetime] has replaced the column. *)
Inductive cell :=
| Text (s : string)
| Date (d : datetime).

(** One row of the table, i.e. the dictionary appended at lines 63-71. The
    identifier is an integer, the price is carried through as the upstream
    sent it (its literal text). *)
Record Listing := mkListing {
  ID : Z;
  Title : string;
  Price : string;
  Brand : string;
  Condition : string;
  Link : string;
  Created : cell;
}.

(** A pandas table of listings. [pd.DataFrame([])] has no column at all,
    which differs from a table that has the seven columns and no row (such as
    a filtered table). *)
Inductive DataFrame :=
| NoColumns
| Table (rows : list Listing).

(** The [brand] object of an upstream record. *)
Record RawBrand := mkRawBrand {
  brand_title : option string;
}.

(** An upstream record in the shape the endpoint documents; every key may be
    absent. *)
Record RawItem := mkRawItem {
  raw_id : option Z;
  raw_title : option string;
  raw_price : option string;
  raw_brand : option RawBrand;
  raw_status_id : option Z;
  raw_url : option string;
  raw_created_at : option string;
}.

(** The query parameters of one request (lines 45-52). [catalog_ids] is
    [None] when the key is not set. *)
Record Request := mkRequest {
  search_text : string;
  per_page : Z;
  page : Z;
  catalog_ids : option (option Z);
}.

(** What lines 55-57 produce: an exception (transport error, error status or
    a body that is not JSON), caught at line 58 with its message, or the
    decoded body, whose ["items"] key may be absent. *)
Inductive Response :=
| Failed (message : string)
| Body (items : option (list RawItem)).

(** A saved search, the dictionary built at line 133. *)
Record SearchQuery := mkSearchQuery {
  search : string;
  category : string;
}.

(** The world outside the functions: the two files (absent, or holding what
    was last dumped into them), the requests issued so far and the messages
    shown with [st.error]. *)
Record World := mkWorld {
  favorites_json : option (gmap string SearchQuery);
  previous_results_csv : option DataFrame;
  requests_sent : list Request;
  errors_shown : list string;
}.

Definition FAVORITES_FILE := "favorites.json".
Definition PREVIOUS_RESULTS_FILE := "previous_results.csv".

Definition CATEGORY_MAP : list (string * option Z) :=
  [ ("All", None);
    ("Electronics", Some 3);
    ("Women", Some 1904);
    ("Men", Some 1905);
    ("Kids", Some 1906);
    ("Home", Some 5);
    ("Books & Entertainment", Some 16);
    ("Pets", Some 2107) ].

Definition CONDITION_MAP : list (Z * string) :=
  [ (1, "New with tag");
    (2, "New without tag");
    (3, "Very good");
    (4, "Good");
    (5, "Satisfactory") ].

(** Lookup in a dictionary literal (keys are distinct in both tables). *)
Fixpoint dict_get {K V : Type} `{EqDecision K} (d : list (K * V)) (k : K) : option V :=
  match d with
  | [] => None
  | (k', v) :: d' => if decide (k' = k) then Some v else dict_get d' k
  end.

(** ** The monad of the Python code *)

Definition Py (A : Type) : Type := World -> result A * World.

Definition ret {A : Type} (a : A) : Py A := fun w => (Ok a, w).

Definition raise {A : Type} (e : exn) : Py A := fun w => (Raise e, w).

Definition bind {A B : Type} (m : Py A) (k : A -> Py B) : Py B :=
  fun w =>
    match m w with
    | (Ok a, w') => k a w'
    | (Raise e, w') => (Raise e, w')
    end.

Definition lift {A : Type} (r : result A) : Py A := fun w => (r, w).

Declare Scope py_scope.
Delimit Scope py_scope with py.
Notation "x <- m ;; k" := (bind m (fun x => k))
  (at level 100, m at next level, right associativity) : py_scope.
Notation "m ;;; k" := (bind m (fun _ => k))
  (at level 100, right associativity) : py_scope.
Local Open Scope py_scope.

(** A [for] loop whose body may [break]: the body says whether the loop goes
    on ([Next]) or was left ([Stop]); the loop reports the same. *)
Inductive ctl (S : Type) :=
| Next (s : S)
| Stop (s : S).
Arguments Next {S} s.
Arguments Stop {S} s.

Definition ctl_state {S : Type} (c : ctl S) : S :=
  match c with Next s | Stop s => s end.

Fixpoint for_each {X S : Type} (body : X -> S -> Py (ctl S)) (xs : list X) (s : S)
  : Py (ctl S) :=
  match xs with
  | [] => ret (Next s)
  | x :: xs' =>
      c <- body x s ;;
      match c with
      | Next s' => for_each body xs' s'
      | Stop s' => ret (Stop s')
      end
  end.

(** ** World access *)

(** [requests.get(url, params=params, headers=headers)] followed by
    [raise_for_status] and [json]: the request is recorded, the upstream
    decides the response. *)
Definition log_request (rq : Request) (w : World) : World :=
  mkWorld (favorites_json w) (previous_results_csv w)
          (requests_sent w ++ [rq]) (errors_shown w).

Definition log_error (msg : string) (w : World) : World :=
  mkWorld (favorites_json w) (previous_results_csv w)
          (requests_sent w) (errors_shown w ++ [msg]).

(** [st.error(msg)] *)
Definition st_error (msg : string) : Py unit :=
  fun w => (Ok tt, log_error msg w).

(** [d[key]] on a dictionary whose entry under [key] is [v]. *)
Definition subscript {A : Type} (key : string) (v : option A) : Py A :=
  match v with
  | Some a => ret a
  | None => raise (KeyError key)
  end.

(** ** Listing Fetcher *)

Definition with_Created (r : Listing) (d : datetime) : Listing :=
  mkListing (ID r) (Title r) (Price r) (Brand r) (Condition r) (Link r) (Date d).

Section Fetcher.

(** The marketplace, as a function of the request, and the parser behind
    [pd.to_datetime] ([None] when it rejects the text). *)
Variable upstream : Request -> Response.
Variable parse_datetime : string -> option datetime.

Definition requests_get (params : Request) : Py Response :=
  fun w => (Ok (upstream params), log_request params w).

(** Lines 45-52. *)
Definition build_params (search_term category : string) (page : Z) : Py Request :=
  if decide (category <> "All") then
    id <- subscript category (dict_get CATEGORY_MAP category) ;;
    ret (mkRequest search_term 50 page (Some id))
  else ret (mkRequest search_term 50 page None).

(** The dictionary of lines 63-71, its entries evaluated in order. *)
Definition normalize (item : RawItem) : Py Listing :=
  id <- subscript "id" (raw_id item) ;;
  title <- subscript "title" (raw_title item) ;;
  price <- subscript "price" (raw_price item) ;;
  let brand := default "Unknown" (brand_title (default (mkRawBrand None) (raw_brand item))) in
  let condition := default "Unknown" (dict_get CONDITION_MAP (default 0 (raw_status_id item))) in
  url <- subscript "url" (raw_url item) ;;
  let created := default "" (raw_created_at item) in
  ret (mkListing id title price brand condition ("https://www.vinted.fr" +:+ url) (Text created)).

(** The loop state: [items] and [fetched]. *)
Definition fetch_state : Type := list Listing * Z.

(** Lines 62-74: the body of the loop over the records of a page. *)
Definition item_body (limit : Z) (item : RawItem) (s : fetch_state)
  : Py (ctl fetch_state) :=
  row <- normalize item ;;
  let items := (s.1 ++ [row]) in
  let fetched := s.2 + 1 in
  if decide (fetched >= limit) then ret (Stop (items, fetched))
  else ret (Next (items, fetched)).

(** Lines 44-74: the body of the loop over the pages. The [break] of line
    60 leaves this loop, the one of line 74 only the loop over the
    records. *)
Definition page_body (search_term category : string) (limit : Z)
           (page : Z) (s : fetch_state) : Py (ctl fetch_state) :=
  params <- build_params search_term category page ;;
  res <- requests_get params ;;
  match res with
  | Failed e => st_error ("Failed to fetch data: " +:+ e) ;;; ret (Stop s)
  | Body data_items =>
      c <- for_each (item_body limit) (default [] data_items) s ;;
      ret (Next (ctl_state c))
  end.

(** [pd.to_datetime] on one value, with the default [errors="raise"]: the
    empty text is a missing value, any other text goes to the parser. *)
Definition to_datetime_cell (c : cell) : result datetime :=
  match c with
  | Text s =>
      if decide (s = "") then Ok NaT
      else match parse_datetime s with
           | Some d => Ok d
           | None => Raise (ValueError s)
           end
  | Date d => Ok d
  end.

(** [pd.to_datetime] on a column: value by value, the first rejected one
    raises. *)
Fixpoint to_datetime (col : list cell) : result (list datetime) :=
  match col with
  | [] => Ok []
  | c :: col' =>
      match to_datetime_cell c with
      | Raise e => Raise e
      | Ok d =>
          match to_datetime col' with
          | Raise e => Raise e
          | Ok ds => Ok (d :: ds)
          end
      end
  end.

(** Lines 76-78. *)
Definition finish (items : list Listing) : Py DataFrame :=
  let df := match items with [] => NoColumns | _ => Table items end in
  match df with
  | NoColumns => raise (KeyError "Created")
  | Table rows =>
      col <- lift (to_datetime (Created <$> rows)) ;;
      ret (Table (zip_with with_Created rows col))
  end.

Definition fetch_loop (search_term category : string) (limit : Z) : Py (ctl fetch_state) :=
  let pages := limit / 50 + 1 in
  for_each (page_body search_term category limit) (seqZ 1 pages) ([], 0).

Definition fetch_vinted_items (search_term category : string) (limit : Z) : Py DataFrame :=
  c <- fetch_loop search_term category limit ;;
  finish (ctl_state c).1.

End Fetcher.

(** ** Favorites Store *)

Definition load_favorites : Py (gmap string SearchQuery) :=
  fun w =>
    match favorites_json w with
    | Some favs => (Ok favs, w)
    | None => (Ok ∅, w)
    end.

Definition dump_favorites (favs : gmap string SearchQuery) : Py unit :=
  fun w => (Ok tt, mkWorld (Some favs) (previous_results_csv w)
                           (requests_sent w) (errors_shown w)).

Definition save_favorite (name : string) (query : SearchQuery) : Py unit :=
  favs <- load_favorites ;;
  let favs := <[name := query]> favs in
  dump_favorites favs.

(** ** Snapshot Differ *)

Definition path_exists_previous : Py bool :=
  fun w => (Ok (bool_decide (is_Some (previous_results_csv w))), w).

(** [df.to_csv(PREVIOUS_RESULTS_FILE, index=False)]: the file is replaced. *)
Definition to_csv (df : DataFrame) : Py unit :=
  fun w => (Ok tt, mkWorld (favorites_json w) (Some df)
                           (requests_sent w) (errors_shown w)).

(** [pd.read_csv(PREVIOUS_RESULTS_FILE)]: a file dumped from a table without
    columns has nothing to parse. Only the [ID] column of the result is used,
    and integers are read back as they were written. *)
Definition read_csv : Py DataFrame :=
  fun w =>
    match previous_results_csv w with
    | Some (Table rows) => (Ok (Table rows), w)
    | Some NoColumns => (Raise EmptyDataError, w)
    | None => (Raise (FileNotFoundError PREVIOUS_RESULTS_FILE), w)
    end.

(** [df["ID"]] *)
Definition getitem_ID (df : DataFrame) : Py (list Z) :=
  match df with
  | NoColumns => raise (KeyError "ID")
  | Table rows => ret (ID <$> rows)
  end.

(** [df[df["ID"].isin(ids)]] on a table that has the column. *)
Definition select_isin (df : DataFrame) (ids : gset Z) : DataFrame :=
  match df with
  | NoColumns => NoColumns
  | Table rows => Table (filter (fun r => ID r ∈ ids) rows)
  end.

Definition detect_new_items (current_df : DataFrame) : Py DataFrame :=
  present <- path_exists_previous ;;
  if negb present then
    to_csv current_df ;;;
    ret current_df
  else
    prev_df <- read_csv ;;
    cur_ids <- getitem_ID current_df ;;
    prev_ids <- getitem_ID prev_df ;;
    let new_ids : gset Z := list_to_set cur_ids ∖ list_to_set prev_ids in
    let new_listings := select_isin current_df new_ids in
    to_csv current_df ;;;
    ret new_listings.

(** ** The page: what a run of the script does once a button is clicked *)

(** A row of a table shown with [drop(columns=["Created"])]. *)
Record ListingView := mkListingView {
  view_ID : Z;
  view_Title : string;
  view_Price : string;
  view_Brand : string;
  view_Condition : string;
  view_Link : string;
}.

Definition drop_Created (r : Listing) : ListingView :=
  mkListingView (ID r) (Title r) (Price r) (Brand r) (Condition r) (Link r).

(** The elements a run puts on the page below the inputs, with the values
    their texts are formatted from:
    [st.success(f"Total listings: {len(df)}")],
    [st.info(f"New listings since last check: {len(new_items)}")],
    [st.dataframe(...)], [st.write("No new listings since last time.")],
    [st.download_button("Download All", df.to_csv(index=False), ...)],
    [st.success(f"Saved '{fav_name}'!")], [st.warning("No listings found.")],
    [st.write(f"Results for: {name} ({q['search']})")] and
    [st.write(f"New listings: {len(new)}")]. *)
Inductive widget :=
| Success_total (n : nat)
| Info_new (n : nat)
| Dataframe (rows : list ListingView)
| Write_no_new
| Download_all (df : DataFrame)
| Success_saved (fav_name : string)
| Warning_no_listings
| Write_results_for (name search : string)
| Write_new_count (n : nat).

(** The page of a run: the world and the elements rendered so far. *)
Record Page := mkPage {
  world : World;
  rendered : list widget;
}.

(** Script code: like [Py], and what was rendered before an exception
    stays on the page. *)
Definition Ui (A : Type) : Type := Page -> result A * Page.

Definition ui_ret {A : Type} (a : A) : Ui A := fun pg => (Ok a, pg).

Definition ui_bind {A B : Type} (m : Ui A) (k : A -> Ui B) : Ui B :=
  fun pg =>
    match m pg with
    | (Ok a, pg') => k a pg'
    | (Raise e, pg') => (Raise e, pg')
    end.

(** A call of one of the functions above from the script. *)
Definition call {A : Type} (m : Py A) : Ui A :=
  fun pg =>
    match m (world pg) with
    | (r, w') => (r, mkPage w' (rendered pg))
    end.

Definition render (x : widget) : Ui unit :=
  fun pg => (Ok tt, mkPage (world pg) (rendered pg ++ [x])).

(** [df.empty] and [len(df)] *)
Definition DataFrame_empty (df : DataFrame) : bool :=
  match df with
  | NoColumns => true
  | Table rows => bool_decide (rows = [])
  end.

Definition DataFrame_len (df : DataFrame) : nat :=
  match df with
  | NoColumns => O
  | Table rows => length rows
  end.

(** [df.drop(columns=["Created"])] *)
Definition drop_Created_column (df : DataFrame) : Py (list ListingView) :=
  match df with
  | NoColumns => raise (KeyError "['Created'] not found in axis")
  | Table rows => ret (drop_Created <$> rows)
  end.

Declare Scope ui_scope.
Delimit Scope ui_scope with ui.
Notation "x <- m ;; k" := (ui_bind m (fun x => k))
  (at level 100, m at next level, right associativity) : ui_scope.
Notation "m ;;; k" := (ui_bind m (fun _ => k))
  (at level 100, right associativity) : ui_scope.

Section Presentation.

Variable upstream : Request -> Response.
Variable parse_datetime : string -> option datetime.

Local Open Scope ui_scope.

(** Lines 117-137, the run in which [st.button("Search Now")] is true.
    [search], [category] and [max_results] are what the three inputs of
    lines 112-114 hold, [fav_name] what the text input of line 131 returns
    and [save_clicked] what [st.button("Save Favorite")] returns when line
    132 gets to it. *)
Definition search_now (search category : string) (max_results : Z)
           (fav_name : string) (save_clicked : bool) : Ui unit :=
  df <- call (fetch_vinted_items upstream parse_datetime search category max_results) ;;
  if negb (DataFrame_empty df) then
    new_items <- call (detect_new_items df) ;;
    render (Success_total (DataFrame_len df)) ;;;
    (if negb (DataFrame_empty new_items) then
       render (Info_new (DataFrame_len new_items)) ;;;
       view <- call (drop_Created_column new_items) ;;
       render (Dataframe view)
     else render Write_no_new) ;;;
    render (Download_all df) ;;;
    if bool_decide (fav_name <> "") && save_clicked then
      call (save_favorite fav_name (mkSearchQuery search category)) ;;;
      render (Success_saved fav_name)
    else ui_ret tt
  else render Warning_no_listings.

(** Lines 145-149, the run in which the button of the favorite [name],
    saved with the query [q], is true. *)
Definition run_favorite (name : string) (q : SearchQuery) : Ui unit :=
  df <- call (fetch_vinted_items upstream parse_datetime (search q) (category q) 100) ;;
  new <- call (detect_new_items df) ;;
  render (Write_results_for name (search q)) ;;;
  render (Write_new_count (DataFrame_len new)) ;;;
  view <- call (drop_Created_column new) ;;
  render (Dataframe view).

End Presentation.

(** ** Notions used in the statements *)

(** The first of the required keys ([id], [title], [price], [url], in the
    order line 63-69 read them) that an upstream record lacks. *)
Definition missing_required (item : RawItem) : option string :=
  match raw_id item, raw_title item, raw_price item, raw_url item with
  | None, _, _, _ => Some "id"
  | _, None, _, _ => Some "title"
  | _, _, None, _ => Some "price"
  | _, _, _, None => Some "url"
  | _, _, _, _ => None
  end.

(** A [Created] cell that the conversion accepts: the empty text, a text
    the parser takes, or a date. *)
Definition convertible (parse_datetime : string -> option datetime) (c : cell) : Prop :=
  match c with
  | Text s => s = "" \/ is_Some (parse_datetime s)
  | Date _ => True
  end.

(** A row after the conversion, when its cell is convertible: the empty
    text becomes [NaT]. *)
Definition stamped (parse_datetime : string -> option datetime) (r : Listing) : Listing :=
  with_Created r
    match Created r with
    | Text s => if decide (s = "") then NaT else default NaT (parse_datetime s)
    | Date d => d
    end.

(** The loop over the pages gets to page [k], with [st] collected so far and
    the world [w1]: the pages before [k] were all answered and normalised. *)
Definition reaches_page (upstream : Request -> Response) (search_term category : string)
           (limit k : Z) (w : World) (st : fetch_state) (w1 : World) : Prop :=
  for_each (page_body upstream search_term category limit) (seqZ 1 (k - 1)) ([], 0) w
  = (Ok (Next st), w1).

(** The upstream honours [per_page]: no response has more than fifty
    records. *)
Definition honours_per_page (upstream : Request -> Response) : Prop :=
  forall rq data_items, upstream rq = Body (Some data_items) ->
                        Z.of_nat (length data_items) <= 50.

(** A response without any record. *)
Definition no_items (r : Response) : Prop :=
  r = Body None \/ r = Body (Some []).

Definition is_failed (r : Response) : Prop :=
  exists message, r = Failed message.

(** The identifiers of the snapshot on disk; none when there is no file. *)
Definition snapshot_ids (w : World) : list Z :=
  match previous_results_csv w with
  | Some (Table rows) => ID <$> rows
  | _ => []
  end.

(** The snapshot file is absent or holds a table of listings, as every
    snapshot written from a fetched table does. *)
Definition snapshot_readable (w : World) : Prop :=
  previous_results_csv w <> Some NoColumns.

(** The mapping [load_favorites] reads in a world. *)
Definition favorites_of (w : World) : gmap string SearchQuery :=
  default ∅ (favorites_json w).

(** What a fetch did to the world [w], ending in [w']: the two files are as
    they were, the requests [news] were sent, and at most one message was
    shown. *)
Definition fetch_effects (w w' : World) (news : list Request) : Prop :=
  favorites_json w' = favorites_json w /\
  previous_results_csv w' = previous_results_csv w /\
  requests_sent w' = requests_sent w ++ news /\
  (errors_shown w' = errors_shown w \/
   exists message, errors_shown w' = errors_shown w ++ [message]).

(** An upstream record that normalises and whose [created_at] the
    conversion accepts. *)
Definition well_formed (parse_datetime : string -> option datetime) (item : RawItem) : Prop :=
  missing_required item = None /\
  convertible parse_datetime (Text (default "" (raw_created_at item))).

(** [row] is what [item] normalises to. *)
Definition normalizes_to (item : RawItem) (row : Listing) : Prop :=
  forall w, normalize item w = (Ok row, w).

(** The counter after one page of [n] complete records, from [fetched]: a
    page that starts at or over the limit adds its first record, a page that
    starts below stops at the limit. *)
Definition count_after_page (limit n fetched : Z) : Z :=
  if decide (fetched >= limit) then (if decide (0 < n) then fetched + 1 else fetched)
  else Z.min (fetched + n) limit.

Fixpoint count_after_pages (limit : Z) (pages : nat) (fetched : Z) : Z :=
  match pages with
  | O => fetched
  | S pages' => count_after_pages limit pages' (count_after_page limit 50 fetched)
  end.

(** [records] is what the upstream serves for page [p] of a search: the
    records of the response to the request the loop builds for that page
    (none when the body has no ["items"] key). *)
Definition page_records (upstream : Request -> Response) (search_term category : string)
           (p : Z) (records : list RawItem) : Prop :=
  exists rq data,
    (forall w, build_params search_term category p w = (Ok rq, w)) /\
    upstream rq = Body data /\
    default [] data = records.

(** The rows of [cur] whose identifier is not in the snapshot of [w] (all
    of them when there is no snapshot). *)
Definition unseen (w : World) (cur : list Listing) : list Listing :=
  filter (fun r => ID r ∉ snapshot_ids w) cur.

(** What a search shows for the fetched rows [cur], of which [new] are
    new. *)
Definition search_widgets (cur new : list Listing) (fav_name : string)
           (save_clicked : bool) : list widget :=
  Success_total (length cur)
  :: (if bool_decide (new = []) then [Write_no_new]
      else [Info_new (length new); Dataframe (drop_Created <$> new)])
  ++ Download_all (Table cur)
  :: (if bool_decide (fav_name <> "") && save_clicked then [Success_saved fav_name] else []).

(** The world after a search that fetched [cur] and left [w1]: the snapshot
    is [cur], and the favorites have the new entry when it was saved. *)
Definition world_after_search (w1 : World) (cur : list Listing) (search category : string)
           (fav_name : string) (save_clicked : bool) : World :=
  mkWorld
    (if bool_decide (fav_name <> "") && save_clicked
     then Some (<[fav_name := mkSearchQuery search category]> (favorites_of w1))
     else favorites_json w1)
    (Some (Table cur)) (requests_sent w1) (errors_shown w1).

(** ** Sample data for the examples *)

Definition fresh_world : World := mkWorld None None [] [].

Definition sample_item (i : Z) : RawItem :=
  mkRawItem (Some i) (Some "item") (Some "10.0") None None (Some "/items/x") None.

Definition dated_item (i : Z) (created_at : string) : RawItem :=
  mkRawItem (Some i) (Some "item") (Some "10.0") None None (Some "/items/x")
            (Some created_at).

Definition item_without_id : RawItem :=
  mkRawItem None (Some "item") (Some "10.0") None None (Some "/items/x") None.

Definition sample_listing (i : Z) : Listing :=
  mkListing i "item" "10.0" "Unknown" "Unknown" "https://www.vinted.fr/items/x" (Date NaT).

(** A parser for the examples: it takes a text made of decimal digits only
    (a compact date such as 20240105) and rejects every other text. *)
Fixpoint digits_value (s : string) (acc : Z) : option Z :=
  match s with
  | EmptyString => Some acc
  | String c s' =>
      let n := Z.of_nat (Ascii.nat_of_ascii c) in
      if decide (48 <= n <= 57) then digits_value s' (10 * acc + (n - 48)) else None
  end.

Definition digits_parser (s : string) : option datetime :=
  if decide (s = "") then None else Stamp <$> digits_value s 0.

(** An upstream that always has a full page of fifty records. *)
Definition full_pages (rq : Request) : Response :=
  Body (Some (sample_item <$> seqZ ((page rq - 1) * 50 + 1) 50)).

(** An upstream whose first page holds a record without [id] between two
    complete ones. *)
Definition broken_record_page (rq : Request) : Response :=
  if decide (page rq = 1) then Body (Some [sample_item 1; item_without_id; sample_item 3])
  else Body (Some []).

(** An upstream whose first page holds a record with a date and one whose
    [created_at] is not a date. *)
Definition bad_date_page (rq : Request) : Response :=
  if decide (page rq = 1)
  then Body (Some [dated_item 1 "20240105"; dated_item 2 "not a date"])
  else Body (Some []).

(** An upstream whose first page holds two records, one of them with an
    empty [created_at], and whose later pages are empty. *)
Definition empty_date_page (rq : Request) : Response :=
  if decide (page rq = 1)
  then Body (Some [dated_item 1 "20240105"; dated_item 2 ""])
  else Body (Some []).

(** An upstream that answers the first page with two records and fails on
    every later one. *)
Definition fails_after_first_page (rq : Request) : Response :=
  if decide (page rq = 1) then Body (Some [sample_item 1; sample_item 2])
  else Failed "timeout".

(** An upstream whose first page holds a record with a date and one whose
    [created_at] is not a date, and which fails on every later page. *)
Definition bad_date_then_failure (rq : Request) : Response :=
  if decide (page rq = 1)
  then Body (Some [dated_item 1 "20240105"; dated_item 2 "not a date"])
  else Failed "timeout".

(** An upstream that is down, and one that has nothing to offer. *)
Definition upstream_down (rq : Request) : Response := Failed "timeout".
Definition upstream_empty (rq : Request) : Response := Body (Some []).

(** * Properties *)

(** ** Loops *)

Ltac py_unfold := unfold bind, ret, raise, lift, subscript in *.

Lemma for_each_app {X S : Type} (body : X -> S -> Py (ctl S)) (l1 l2 : list X) (s : S) (w : World) :
  for_each body (l1 ++ l2) s w =
  match for_each body l1 s w with
  | (Ok (Next s'), w') => for_each body l2 s' w'
  | other => other
  end.
Proof.
  revert s w. induction l1 as [|x l1 IH]; intros s w; simpl; [reflexivity|].
  unfold bind. destruct (body x s w) as [[[s'|s']|e] w']; simpl; auto.
Qed.

(** A loop whose body never touches the world leaves it as it was. *)
Lemma for_each_world {X S : Type} (body : X -> S -> Py (ctl S)) (l : list X) :
  (forall x s w, (body x s w).2 = w) ->
  forall s w, (for_each body l s w).2 = w.
Proof.
  intros Hbody. induction l as [|x l IH]; intros s w; simpl; [reflexivity|].
  unfold bind. specialize (Hbody x s w).
  destruct (body x s w) as [[[s'|s']|e] w']; simpl in *; subst; auto.
Qed.

(** ** Normalising a record *)

Lemma normalize_missing (item : RawItem) (key : string) (w : World) :
  missing_required item = Some key ->
  normalize item w = (Raise (KeyError key), w).
Proof.
  unfold missing_required, normalize. py_unfold.
  destruct (raw_id item), (raw_title item), (raw_price item), (raw_url item);
    simpl; intros [= <-]; reflexivity.
Qed.

Lemma normalize_present (item : RawItem) :
  missing_required item = None ->
  exists row, forall w, normalize item w = (Ok row, w).
Proof.
  unfold missing_required, normalize. py_unfold.
  destruct (raw_id item), (raw_title item), (raw_price item), (raw_url item);
    simpl; intros [=]; eexists; intros w; reflexivity.
Qed.

Lemma normalize_world (item : RawItem) (w : World) : (normalize item w).2 = w.
Proof.
  destruct (missing_required item) as [key|] eqn:E.
  - by rewrite (normalize_missing _ _ _ E).
  - destruct (normalize_present _ E) as [row Hrow]. by rewrite Hrow.
Qed.

Lemma item_body_world (limit : Z) (item : RawItem) (s : fetch_state) (w : World) :
  (item_body limit item s w).2 = w.
Proof.
  unfold item_body, bind. pose proof (normalize_world item w) as H.
  destruct (normalize item w) as [[row|e] w']; simpl in *; subst; [|reflexivity].
  case_decide; reflexivity.
Qed.

Lemma item_loop_world (limit : Z) (l : list RawItem) (s : fetch_state) (w : World) :
  (for_each (item_body limit) l s w).2 = w.
Proof. apply for_each_world. intros. apply item_body_world. Qed.

(** The records of a page before the limit is reached are all appended. *)
Lemma item_loop_prefix (limit : Z) (pre : list RawItem) :
  Forall (fun it => missing_required it = None) pre ->
  forall s : fetch_state,
    s.2 + Z.of_nat (length pre) < limit ->
    exists rows, length rows = length pre /\
      forall rest w,
        for_each (item_body limit) (pre ++ rest) s w =
        for_each (item_body limit) rest (s.1 ++ rows, s.2 + Z.of_nat (length pre)) w.
Proof.
  induction 1 as [|it pre Hit Hpre IH]; intros [items fetched] Hlt; simpl in *.
  - exists []. split; [reflexivity|]. intros rest w.
    by rewrite app_nil_r, Z.add_0_r.
  - destruct (normalize_present _ Hit) as [row Hrow].
    destruct (IH (items ++ [row], fetched + 1)) as (rows & Hlen & Hrun);
      [simpl; lia|].
    exists (row :: rows). split; [simpl; by rewrite Hlen|]. intros rest w.
    unfold bind at 1. unfold item_body at 1. unfold bind at 1. rewrite Hrow. simpl.
    case_decide; [lia|]. unfold ret at 1. rewrite Hrun. simpl.
    rewrite <- app_assoc. simpl.
    replace (fetched + 1 + Z.of_nat (length pre)) with (fetched + Z.of_nat (S (length pre))) by lia.
    reflexivity.
Qed.

(** The first record without a required key that the loop reaches raises. *)
Lemma item_loop_missing (limit : Z) (pre post : list RawItem) (bad : RawItem)
      (key : string) (s : fetch_state) (w : World) :
  Forall (fun it => missing_required it = None) pre ->
  pre = [] \/ s.2 + Z.of_nat (length pre) < limit ->
  missing_required bad = Some key ->
  for_each (item_body limit) (pre ++ bad :: post) s w = (Raise (KeyError key), w).
Proof.
  intros Hpre Hreach Hbad.
  assert (forall s' : fetch_state,
             for_each (item_body limit) (bad :: post) s' w = (Raise (KeyError key), w)) as Hraise.
  { intros s'. simpl. unfold bind at 1. unfold item_body, bind.
    by rewrite (normalize_missing _ _ _ Hbad). }
  destruct Hreach as [->|Hlt]; [apply Hraise|].
  destruct (item_loop_prefix limit pre Hpre s Hlt) as (rows & _ & Hrun).
  rewrite Hrun. apply Hraise.
Qed.

(** ** The loop over the pages *)

Lemma pages_split (k n : Z) :
  1 <= k <= n ->
  seqZ 1 n = seqZ 1 (k - 1) ++ k :: seqZ (k + 1) (n - k).
Proof.
  intros Hk. replace n with ((k - 1) + (n - k + 1)) at 1 by lia.
  rewrite seqZ_app by lia. f_equal.
  rewrite seqZ_cons by lia. f_equal; [lia|]. f_equal; lia.
Qed.

Lemma build_params_inv (search_term category : string) (p : Z) (rq : Request) (w w' : World) :
  build_params search_term category p w = (Ok rq, w') ->
  w' = w /\ page rq = p /\ search_text rq = search_term /\
  forall w2, build_params search_term category p w2 = (Ok rq, w2).
Proof.
  unfold build_params. py_unfold. case_decide.
  - destruct (dict_get CATEGORY_MAP category); [|discriminate].
    intros [= <- <-]. auto.
  - intros [= <- <-]. auto.
Qed.

Lemma build_params_ok (search_term category : string) (p : Z) :
  category = "All" \/ is_Some (dict_get CATEGORY_MAP category) ->
  exists rq, page rq = p /\ forall w, build_params search_term category p w = (Ok rq, w).
Proof.
  intros Hcat. unfold build_params. py_unfold. case_decide.
  - destruct Hcat as [?|[id Hid]]; [done|]. rewrite Hid. eexists; split; [|done]. done.
  - eexists; split; [|done]. done.
Qed.

(** A failed request leaves the loop with what was collected. *)
Lemma page_body_failed (upstream : Request -> Response) (search_term category : string)
      (limit p : Z) (rq : Request) (message : string) (s : fetch_state) (w : World) :
  build_params search_term category p w = (Ok rq, w) ->
  upstream rq = Failed message ->
  page_body upstream search_term category limit p s w =
  (Ok (Stop s), log_error ("Failed to fetch data: " +:+ message) (log_request rq w)).
Proof.
  intros Hrq Hfail. unfold page_body. unfold bind at 1. rewrite Hrq.
  unfold bind at 1. unfold requests_get. rewrite Hfail. reflexivity.
Qed.

(** An answered request goes on to the next page, whatever the loop over its
    records did, and only records the request. *)
Lemma page_body_answered (upstream : Request -> Response) (search_term category : string)
      (limit p : Z) (rq : Request) (data_items : option (list RawItem))
      (s : fetch_state) (w : World) :
  build_params search_term category p w = (Ok rq, w) ->
  upstream rq = Body data_items ->
  page_body upstream search_term category limit p s w =
  match for_each (item_body limit) (default [] data_items) s (log_request rq w) with
  | (Ok c, w') => (Ok (Next (ctl_state c)), w')
  | (Raise e, w') => (Raise e, w')
  end.
Proof.
  intros Hrq Hbody. unfold page_body. unfold bind at 1. rewrite Hrq.
  unfold bind at 1. unfold requests_get. rewrite Hbody. reflexivity.
Qed.

(** When the loop over the pages goes through a list of pages without
    leaving, it has sent one request per page, in order, and shown no
    message. *)
Lemma page_loop_next (upstream : Request -> Response) (search_term category : string)
      (limit : Z) (l : list Z) :
  forall s s' w w',
    for_each (page_body upstream search_term category limit) l s w = (Ok (Next s'), w') ->
    page <$> requests_sent w' = (page <$> requests_sent w) ++ l /\
    errors_shown w' = errors_shown w /\
    favorites_json w' = favorites_json w /\
    previous_results_csv w' = previous_results_csv w.
Proof.
  induction l as [|p l IH]; intros s s' w w'; simpl.
  - intros [= <- <-]. by rewrite app_nil_r.
  - unfold bind at 1.
    destruct (build_params search_term category p w) as [[rq|e] w1] eqn:Hrq.
    + destruct (build_params_inv _ _ _ _ _ _ Hrq) as (-> & Hpage & _ & _).
      destruct (upstream rq) as [message|data_items] eqn:Hup.
      * rewrite (page_body_failed _ _ _ _ _ _ _ _ _ Hrq Hup). discriminate.
      * rewrite (page_body_answered _ _ _ _ _ _ _ _ _ Hrq Hup).
        pose proof (item_loop_world limit (default [] data_items) s (log_request rq w)) as Hw.
        destruct (for_each (item_body limit) _ s (log_request rq w)) as [[c|e] w2];
          simpl in Hw; subst w2; [|discriminate].
        intros Hrest. apply IH in Hrest as (Hreq & Herr & Hfav & Hprev).
        simpl in *. rewrite Hreq, fmap_app, <- app_assoc. simpl. by rewrite Hpage.
    + unfold page_body. unfold bind at 1. rewrite Hrq. discriminate.
Qed.

(** ** The conversion of the [Created] column *)

Lemma to_datetime_cell_convertible (parse : string -> option datetime) (r : Listing) :
  convertible parse (Created r) ->
  exists d, to_datetime_cell parse (Created r) = Ok d /\ with_Created r d = stamped parse r.
Proof.
  unfold convertible, stamped, to_datetime_cell.
  destruct (Created r) as [s|d]; [|eauto].
  case_decide; [eauto|]. intros [?|[d Hd]]; [done|]. rewrite Hd. eauto.
Qed.

Lemma to_datetime_convertible (parse : string -> option datetime) (rows : list Listing) :
  Forall (fun r => convertible parse (Created r)) rows ->
  exists col, to_datetime parse (Created <$> rows) = Ok col /\
              zip_with with_Created rows col = stamped parse <$> rows.
Proof.
  induction 1 as [|r rows Hr _ (col & Hcol & Hzip)]; csimpl; [eauto|].
  destruct (to_datetime_cell_convertible parse r Hr) as (d & -> & Hd).
  rewrite Hcol. exists (d :: col). csimpl. by rewrite Hd, Hzip.
Qed.

Lemma to_datetime_rejected (parse : string -> option datetime)
      (l1 l2 : list Listing) (r : Listing) (s : string) :
  Forall (fun r => convertible parse (Created r)) l1 ->
  Created r = Text s ->
  ~ convertible parse (Text s) ->
  to_datetime parse (Created <$> (l1 ++ r :: l2)) = Raise (ValueError s).
Proof.
  intros Hl1 Hr Hbad. induction Hl1 as [|r1 l1 Hr1 _ IH]; csimpl.
  - rewrite Hr. simpl. simpl in Hbad. case_decide; [tauto|].
    destruct (parse s) as [d|] eqn:Hd; [|reflexivity].
    exfalso. apply Hbad. right. by exists d.
  - destruct (to_datetime_cell_convertible parse r1 Hr1) as (d & -> & _).
    by rewrite IH.
Qed.

Lemma finish_nil (parse : string -> option datetime) (w : World) :
  finish parse [] w = (Raise (KeyError "Created"), w).
Proof. reflexivity. Qed.

Lemma finish_convertible (parse : string -> option datetime) (items : list Listing) (w : World) :
  items <> [] ->
  Forall (fun r => convertible parse (Created r)) items ->
  finish parse items w = (Ok (Table (stamped parse <$> items)), w).
Proof.
  intros Hne Hok. destruct (to_datetime_convertible parse items Hok) as (col & Hcol & Hzip).
  destruct items as [|r items]; [done|].
  unfold finish. py_unfold. by rewrite Hcol, Hzip.
Qed.

Lemma finish_rejected (parse : string -> option datetime)
      (l1 l2 : list Listing) (r : Listing) (s : string) (w : World) :
  Forall (fun r => convertible parse (Created r)) l1 ->
  Created r = Text s ->
  ~ convertible parse (Text s) ->
  finish parse (l1 ++ r :: l2) w = (Raise (ValueError s), w).
Proof.
  intros Hl1 Hr Hbad. pose proof (to_datetime_rejected parse l1 l2 r s Hl1 Hr Hbad) as Hcol.
  unfold finish. py_unfold. destruct (l1 ++ r :: l2) eqn:E.
  - by destruct l1.
  - by rewrite Hcol.
Qed.

Lemma finish_world (parse : string -> option datetime) (items : list Listing) (w : World) :
  (finish parse items w).2 = w.
Proof.
  unfold finish. py_unfold. destruct items as [|r items]; [reflexivity|].
  destruct (to_datetime parse _); reflexivity.
Qed.

(** The [Created] cell of a normalised record is the upstream text, or the
    empty text when the key is absent. *)
Lemma normalize_created (item : RawItem) (row : Listing) (w w' : World) :
  normalize item w = (Ok row, w') ->
  Created row = Text (default "" (raw_created_at item)).
Proof.
  unfold normalize. py_unfold.
  destruct (raw_id item), (raw_title item), (raw_price item), (raw_url item);
    simpl; intros [= <- _]; reflexivity.
Qed.

(** ** Listing Fetcher: the claims *)

(** What [fetch_vinted_items] returns once the loop over the pages is over. *)
Lemma fetch_after_loop (upstream : Request -> Response) (parse : string -> option datetime)
      (search_term category : string) (limit : Z) (c : ctl fetch_state) (w w' : World) :
  fetch_loop upstream search_term category limit w = (Ok c, w') ->
  fetch_vinted_items upstream parse search_term category limit w
  = finish parse (ctl_state c).1 w'.
Proof. intros Hloop. unfold fetch_vinted_items, bind. by rewrite Hloop. Qed.

(** The loop over the pages when page [k] is reached: it runs the body on
    page [k] and, unless that leaves the loop, goes on with the pages
    behind it. *)
Lemma fetch_loop_at_page (upstream : Request -> Response) (search_term category : string)
      (limit k : Z) (st : fetch_state) (w w1 : World) :
  1 <= k <= limit / 50 + 1 ->
  reaches_page upstream search_term category limit k w st w1 ->
  fetch_loop upstream search_term category limit w =
  for_each (page_body upstream search_term category limit)
           (k :: seqZ (k + 1) (limit / 50 + 1 - k)) st w1.
Proof.
  intros Hk Hreach. unfold fetch_loop.
  rewrite (pages_split k _ Hk), for_each_app. unfold reaches_page in Hreach.
  by rewrite Hreach.
Qed.

(** *** How many listings a fetch returns *)

(** The loop over the records of a page keeps [fetched] equal to the number
    of collected listings, appends at most one listing per record, and
    never goes past the limit by more than the one record it appends before
    it looks at the counter. *)
Lemma item_loop_count (limit : Z) (l : list RawItem) :
  forall (items : list Listing) (fetched : Z) (w w' : World) (c : ctl fetch_state),
    for_each (item_body limit) l (items, fetched) w = (Ok c, w') ->
    Z.of_nat (length items) = fetched ->
    Z.of_nat (length (ctl_state c).1) = (ctl_state c).2 /\
    fetched <= (ctl_state c).2 <= fetched + Z.of_nat (length l) /\
    (ctl_state c).2 <= Z.max limit (fetched + 1).
Proof.
  induction l as [|item l IH]; intros items fetched w w' c; simpl.
  - intros [= <- <-] Hlen. simpl. lia.
  - unfold bind at 1. unfold item_body at 1. unfold bind at 1.
    destruct (normalize item w) as [[row|e] w1]; [|discriminate]. simpl.
    case_decide as Hge; unfold ret at 1.
    + intros [= <- <-] Hlen. simpl. rewrite length_app. simpl. lia.
    + intros Hrest Hlen. apply IH in Hrest; [|rewrite length_app; simpl; lia]. lia.
Qed.

(** The loop over the pages: with [n] pages to go and [fetched] listings so
    far, if fifty more per page stay within [limit + 49 + d], the loop ends
    with at most [limit + d] listings. *)
Lemma page_loop_count (upstream : Request -> Response) (search_term category : string)
      (limit d : Z) (l : list Z) :
  honours_per_page upstream ->
  0 <= d ->
  forall (items : list Listing) (fetched : Z) (w w' : World) (c : ctl fetch_state),
    for_each (page_body upstream search_term category limit) l (items, fetched) w
    = (Ok c, w') ->
    Z.of_nat (length items) = fetched ->
    (l <> [] -> fetched + 50 * Z.of_nat (length l) <= limit + 49 + d) ->
    fetched <= limit + d ->
    Z.of_nat (length (ctl_state c).1) = (ctl_state c).2 /\
    (ctl_state c).2 <= limit + d.
Proof.
  intros Hup Hd. induction l as [|p l IH]; intros items fetched w w' c; simpl.
  - intros [= <- <-] Hlen _ Hle. simpl. lia.
  - unfold bind at 1.
    destruct (build_params search_term category p w) as [[rq|e] w1] eqn:Hrq.
    + destruct (build_params_inv _ _ _ _ _ _ Hrq) as (-> & _ & _ & _).
      destruct (upstream rq) as [message|data_items] eqn:Hbody.
      * rewrite (page_body_failed _ _ _ _ _ _ _ _ _ Hrq Hbody).
        intros [= <- <-] Hlen _ Hle. simpl. lia.
      * rewrite (page_body_answered _ _ _ _ _ _ _ _ _ Hrq Hbody).
        destruct (for_each (item_body limit) _ (items, fetched) (log_request rq w))
          as [[c1|e] w2] eqn:Hitems; [|discriminate].
        intros Hrest Hlen Hroom Hle.
        destruct (item_loop_count _ _ _ _ _ _ _ Hitems Hlen) as (Hlen1 & Hgrow & Hmax).
        assert (Z.of_nat (length (default [] data_items)) <= 50) as Hfifty.
        { destruct data_items as [data|]; [by eapply Hup|simpl; lia]. }
        specialize (Hroom ltac:(discriminate)). simpl in Hroom.
        destruct (ctl_state c1) as [items1 fetched1] eqn:Hc1. simpl in *.
        apply IH in Hrest; [done|done| |lia].
        intros _. lia.
    + unfold page_body. unfold bind at 1. rewrite Hrq. discriminate.
Qed.

Lemma to_datetime_length (parse : string -> option datetime) (col : list cell) :
  forall ds, to_datetime parse col = Ok ds -> length ds = length col.
Proof.
  induction col as [|c col IH]; simpl; intros ds.
  - by intros [= <-].
  - destruct (to_datetime_cell parse c); [|discriminate].
    destruct (to_datetime parse col) as [ds'|]; [|discriminate].
    intros [= <-]. simpl. f_equal. by apply IH.
Qed.

(** The final step returns one row per collected listing. *)
Lemma finish_length (parse : string -> option datetime) (items rows : list Listing)
      (w w' : World) :
  finish parse items w = (Ok (Table rows), w') ->
  length rows = length items.
Proof.
  unfold finish. py_unfold. destruct items as [|r items]; [discriminate|].
  generalize (r :: items). intros items0.
  destruct (to_datetime parse (Created <$> items0)) as [col|] eqn:Hcol; [|discriminate].
  intros [= <- _]. apply to_datetime_length in Hcol.
  rewrite length_zip_with, Hcol, length_fmap. lia.
Qed.

(** X1: how far the result can exceed the limit. When the upstream honours
    [per_page], a fetch returns at most [limit + 1] listings, and at most
    [limit] when the limit is not a multiple of fifty. *)
Theorem fetch_returns_at_most_one_over_limit
        (upstream : Request -> Response) (parse : string -> option datetime)
        (search_term category : string) (limit : Z) (rows : list Listing) (w w' : World) :
  honours_per_page upstream ->
  0 <= limit ->
  fetch_vinted_items upstream parse search_term category limit w = (Ok (Table rows), w') ->
  Z.of_nat (length rows) <= limit + 1 /\
  (limit `mod` 50 <> 0 -> Z.of_nat (length rows) <= limit).
Proof.
  intros Hup Hlimit. unfold fetch_vinted_items, bind.
  destruct (fetch_loop upstream search_term category limit w) as [[c|e] w1] eqn:Hloop;
    [|discriminate].
  intros Hfinish. apply finish_length in Hfinish. rewrite Hfinish.
  unfold fetch_loop in Hloop.
  pose proof (Z.div_mod limit 50 ltac:(lia)) as Hdiv.
  pose proof (Z.mod_pos_bound limit 50 ltac:(lia)) as Hmod.
  pose proof (Z.div_pos limit 50 Hlimit ltac:(lia)) as Hpages.
  split.
  - destruct (page_loop_count upstream search_term category limit 1 _ Hup ltac:(lia)
                _ _ _ _ _ Hloop eq_refl) as (Hlen & Hle).
    + intros _. rewrite length_seqZ. lia.
    + lia.
    + lia.
  - intros Hnot.
    destruct (page_loop_count upstream search_term category limit 0 _ Hup ltac:(lia)
                _ _ _ _ _ Hloop eq_refl) as (Hlen & Hle).
    + intros _. rewrite length_seqZ. lia.
    + lia.
    + lia.
Qed.

Lemma fetch_returns_at_most_one_over_limit_witness :
  Z.of_nat (length (sample_listing <$> seqZ 1 101)) <= 100 + 1 /\
  (100 `mod` 50 <> 0 -> Z.of_nat (length (sample_listing <$> seqZ 1 101)) <= 100).
Proof.
  apply (fetch_returns_at_most_one_over_limit
           full_pages digits_parser "iPhone" "Electronics" 100 _ fresh_world
           (mkWorld None None
                    [mkRequest "iPhone" 50 1 (Some (Some 3));
                     mkRequest "iPhone" 50 2 (Some (Some 3));
                     mkRequest "iPhone" 50 3 (Some (Some 3))] [])).
  - intros rq data_items [= <-]. simpl. lia.
  - lia.
  - vm_compute. reflexivity.
Defined.

(** C1 (the claim fails on the code): with a limit of 100 and an upstream
    that has a full page of fifty records for every request, three pages are
    requested and 101 listings are returned. The [break] of line 74 leaves
    only the loop over the records of page 2; the loop over the pages goes
    on to page 3, whose first record is appended before the counter is
    looked at again. *)
Theorem fetch_limit_100_returns_101 :
  let out := fetch_vinted_items full_pages digits_parser "iPhone" "Electronics" 100 fresh_world in
  out.1 = Ok (Table (sample_listing <$> seqZ 1 101)) /\
  length (sample_listing <$> seqZ 1 101) = 101%nat /\
  page <$> requests_sent out.2 = [1; 2; 3].
Proof. vm_compute. auto. Qed.

(** C3 (as amended): when the loop reaches an upstream record that lacks a
    required key ([id], [title], [price] or [url]), that is, the record is
    the first of its page or the limit is not reached before it,
    [fetch_vinted_items] raises the [KeyError] of the first missing key.
    Nothing is returned, and no request is sent after the one of that page. *)
Theorem missing_required_field_aborts_fetch
        (upstream : Request -> Response) (parse : string -> option datetime)
        (search_term category : string) (limit k : Z) (rq : Request)
        (pre post : list RawItem) (bad : RawItem) (key : string)
        (st : fetch_state) (w w1 : World) :
  1 <= k <= limit / 50 + 1 ->
  reaches_page upstream search_term category limit k w st w1 ->
  build_params search_term category k w1 = (Ok rq, w1) ->
  upstream rq = Body (Some (pre ++ bad :: post)) ->
  Forall (fun it => missing_required it = None) pre ->
  pre = [] \/ st.2 + Z.of_nat (length pre) < limit ->
  missing_required bad = Some key ->
  fetch_vinted_items upstream parse search_term category limit w
  = (Raise (KeyError key), log_request rq w1).
Proof.
  intros Hk Hreach Hrq Hbody Hpre Hlt Hbad.
  unfold fetch_vinted_items, bind.
  rewrite (fetch_loop_at_page _ _ _ _ _ _ _ _ Hk Hreach). simpl.
  unfold bind at 1. rewrite (page_body_answered _ _ _ _ _ _ _ _ _ Hrq Hbody). simpl.
  by rewrite (item_loop_missing limit pre post bad key st _ Hpre Hlt Hbad).
Qed.

(** C3 (the claim fails on the code): a first page of three records whose
    second one has no [id] makes the whole fetch raise [KeyError "id"]; the
    two complete records are not returned. *)
Lemma missing_id_aborts_whole_fetch :
  (fetch_vinted_items broken_record_page digits_parser "iPhone" "All" 100 fresh_world).1
  = Raise (KeyError "id").
Proof. vm_compute. reflexivity. Qed.

Lemma missing_required_field_aborts_fetch_witness :
  fetch_vinted_items broken_record_page digits_parser "iPhone" "All" 100 fresh_world
  = (Raise (KeyError "id"), log_request (mkRequest "iPhone" 50 1 None) fresh_world).
Proof.
  apply (missing_required_field_aborts_fetch
           broken_record_page digits_parser "iPhone" "All" 100 1
           (mkRequest "iPhone" 50 1 None)
           [sample_item 1] [sample_item 3] item_without_id "id"
           ([], 0) fresh_world fresh_world).
  - vm_compute. split; discriminate.
  - reflexivity.
  - reflexivity.
  - reflexivity.
  - repeat constructor.
  - right. vm_compute. reflexivity.
  - reflexivity.
Defined.

(** C4 (as amended): once the loop over the pages is over with at least one
    record collected, a record whose [created_at] is empty or absent does
    not abort the batch: when every collected record has a [created_at]
    that is empty or taken by the date parser, all of them are returned, in
    order, and those with the empty text have the null date [NaT]. A
    non-empty [created_at] that the parser rejects makes the conversion
    raise [ValueError], and nothing is returned. *)
Theorem empty_created_at_becomes_NaT
        (upstream : Request -> Response) (parse : string -> option datetime)
        (search_term category : string) (limit : Z)
        (c : ctl fetch_state) (w w' : World) :
  fetch_loop upstream search_term category limit w = (Ok c, w') ->
  let items := (ctl_state c).1 in
  (items <> [] ->
   Forall (fun r => convertible parse (Created r)) items ->
   fetch_vinted_items upstream parse search_term category limit w
   = (Ok (Table (stamped parse <$> items)), w') /\
   forall r, r ∈ items -> Created r = Text "" -> Created (stamped parse r) = Date NaT) /\
  (forall l1 r l2 s,
      items = l1 ++ r :: l2 ->
      Forall (fun r => convertible parse (Created r)) l1 ->
      Created r = Text s ->
      ~ convertible parse (Text s) ->
      fetch_vinted_items upstream parse search_term category limit w
      = (Raise (ValueError s), w')).
Proof.
  intros Hloop items. rewrite (fetch_after_loop _ parse _ _ _ _ _ _ Hloop).
  fold items. split.
  - intros Hne Hok. split; [by apply finish_convertible|].
    intros r _ Hr. unfold stamped. by rewrite Hr.
  - intros l1 r l2 s -> Hl1 Hr Hbad. by apply finish_rejected.
Qed.

(** C4 (the claim fails on the code): a page of two records, the second
    with a [created_at] that is not a date, makes the fetch raise; the
    record with the good date is not returned. *)
Lemma unparseable_created_at_aborts_fetch :
  (fetch_vinted_items bad_date_page digits_parser "iPhone" "All" 100 fresh_world).1
  = Raise (ValueError "not a date").
Proof. vm_compute. reflexivity. Qed.

Lemma empty_created_at_becomes_NaT_witness :
  fetch_vinted_items empty_date_page digits_parser "iPhone" "All" 50 fresh_world
  = (Ok (Table (stamped digits_parser <$>
                  [mkListing 1 "item" "10.0" "Unknown" "Unknown"
                             "https://www.vinted.fr/items/x" (Text "20240105");
                   mkListing 2 "item" "10.0" "Unknown" "Unknown"
                             "https://www.vinted.fr/items/x" (Text "")])),
     mkWorld None None [mkRequest "iPhone" 50 1 None; mkRequest "iPhone" 50 2 None] []).
Proof.
  refine (proj1 (proj1 (empty_created_at_becomes_NaT
                          empty_date_page digits_parser "iPhone" "All" 50
                          (Next (_, 2)) fresh_world _ _) _ _)).
  - reflexivity.
  - discriminate.
  - constructor; [right; by exists (Stamp 20240105)|].
    constructor; [by left|]. constructor.
Defined.

(** C5 (as amended): when the request of page [k] fails, the loop over the
    pages is left at once: the request of page [k] is the last one sent (one
    request per page from 1 to [k], none of them twice), one message is
    shown, and what the pages before [k] collected goes through the same
    final step as in a complete fetch. So when at least one listing was
    collected and all collected dates convert, exactly the collected
    listings are returned; and when a collected [created_at] is rejected by
    the date parser, the conversion raises [ValueError] and nothing is
    returned. *)
Theorem network_error_keeps_collected_listings
        (upstream : Request -> Response) (parse : string -> option datetime)
        (search_term category : string) (limit k : Z) (rq : Request)
        (message : string) (st : fetch_state) (w w1 : World) :
  1 <= k <= limit / 50 + 1 ->
  reaches_page upstream search_term category limit k w st w1 ->
  build_params search_term category k w1 = (Ok rq, w1) ->
  upstream rq = Failed message ->
  let w2 := log_error ("Failed to fetch data: " +:+ message) (log_request rq w1) in
  let out := fetch_vinted_items upstream parse search_term category limit w in
  out = finish parse st.1 w2 /\
  out.2 = w2 /\
  page <$> requests_sent out.2 = (page <$> requests_sent w) ++ seqZ 1 k /\
  errors_shown out.2 = errors_shown w ++ ["Failed to fetch data: " +:+ message] /\
  (st.1 <> [] ->
   Forall (fun r => convertible parse (Created r)) st.1 ->
   out = (Ok (Table (stamped parse <$> st.1)), w2)) /\
  (forall l1 r l2 s,
      st.1 = l1 ++ r :: l2 ->
      Forall (fun r => convertible parse (Created r)) l1 ->
      Created r = Text s ->
      ~ convertible parse (Text s) ->
      out = (Raise (ValueError s), w2)).
Proof.
  intros Hk Hreach Hrq Hfail w2 out.
  assert (out = finish parse st.1 w2) as Hout.
  { unfold out, fetch_vinted_items, bind.
    rewrite (fetch_loop_at_page _ _ _ _ _ _ _ _ Hk Hreach). simpl.
    unfold bind at 1. by rewrite (page_body_failed _ _ _ _ _ _ _ _ _ Hrq Hfail). }
  destruct (page_loop_next _ _ _ _ _ _ _ _ _ Hreach) as (Hreq & Herr & _ & _).
  destruct (build_params_inv _ _ _ _ _ _ Hrq) as (_ & Hpage & _ & _).
  rewrite Hout, finish_world. repeat split.
  - unfold w2. simpl. rewrite fmap_app, Hreq, <- app_assoc. simpl. f_equal.
    rewrite Hpage. replace (seqZ 1 k) with (seqZ 1 ((k - 1) + 1)) by (f_equal; lia).
    rewrite seqZ_app by lia. f_equal.
    replace (1 + (k - 1)) with k by lia. reflexivity.
  - unfold w2. simpl. by rewrite Herr.
  - intros Hne Hok. by apply finish_convertible.
  - intros l1 r l2 s -> Hl1 Hr Hbad. by apply finish_rejected.
Qed.

(** C5 (the claim fails on the code): the first page gives a listing with a
    good date and one whose [created_at] is not a date, the request of page
    2 fails. The loop is left and the message shown, but the listings of
    page 1 are not returned: the conversion of line 77 raises. *)
Lemma network_error_after_bad_date_returns_nothing :
  fetch_vinted_items bad_date_then_failure digits_parser "iPhone" "All" 100 fresh_world
  = (Raise (ValueError "not a date"),
     mkWorld None None [mkRequest "iPhone" 50 1 None; mkRequest "iPhone" 50 2 None]
             ["Failed to fetch data: timeout"]).
Proof. vm_compute. reflexivity. Qed.

Lemma network_error_keeps_collected_listings_witness :
  fetch_vinted_items fails_after_first_page digits_parser "iPhone" "All" 100 fresh_world
  = (Ok (Table [sample_listing 1; sample_listing 2]),
     mkWorld None None [mkRequest "iPhone" 50 1 None; mkRequest "iPhone" 50 2 None]
             ["Failed to fetch data: timeout"]).
Proof.
  refine (proj1 (proj2 (proj2 (proj2 (proj2
            (network_error_keeps_collected_listings
               fails_after_first_page digits_parser "iPhone" "All" 100 2
               (mkRequest "iPhone" 50 2 None) "timeout"
               ([mkListing 1 "item" "10.0" "Unknown" "Unknown"
                           "https://www.vinted.fr/items/x" (Text "");
                 mkListing 2 "item" "10.0" "Unknown" "Unknown"
                           "https://www.vinted.fr/items/x" (Text "")], 2)
               fresh_world
               (mkWorld None None [mkRequest "iPhone" 50 1 None] [])
               _ _ _ _))))) _ _).
  - vm_compute. split; discriminate.
  - reflexivity.
  - reflexivity.
  - reflexivity.
  - discriminate.
  - constructor; [by left|]. constructor; [by left|]. constructor.
Defined.

(** The loop over the pages collects nothing when no response has a
    record. *)
Lemma page_loop_no_items (upstream : Request -> Response) (search_term category : string)
      (limit : Z) (s : fetch_state) :
  category = "All" \/ is_Some (dict_get CATEGORY_MAP category) ->
  (forall rq, no_items (upstream rq)) ->
  forall l w, exists w',
    for_each (page_body upstream search_term category limit) l s w = (Ok (Next s), w').
Proof.
  intros Hcat Hempty. induction l as [|p l IH]; intros w; simpl; [by eexists|].
  destruct (build_params_ok search_term category p Hcat) as (rq & _ & Hrq).
  unfold bind at 1.
  destruct (Hempty rq) as [Hup|Hup];
    rewrite (page_body_answered _ _ _ _ _ _ _ _ _ (Hrq w) Hup); simpl; apply IH.
Qed.

(** C10: when no record is collected, because the request of the first
    page fails or because no response has a record, the fetch of a
    recognised category raises [KeyError "Created"] at line 77 instead of
    returning an empty table. *)
Theorem fetch_without_records_raises
        (upstream : Request -> Response) (parse : string -> option datetime)
        (search_term category : string) (limit : Z) (w : World) :
  category = "All" \/ is_Some (dict_get CATEGORY_MAP category) ->
  (0 <= limit /\ forall rq, page rq = 1 -> is_failed (upstream rq)) \/
  (forall rq, no_items (upstream rq)) ->
  (fetch_vinted_items upstream parse search_term category limit w).1
  = Raise (KeyError "Created").
Proof.
  intros Hcat [[Hlimit Hfail]|Hempty].
  - destruct (build_params_ok search_term category 1 Hcat) as (rq & Hpage & Hrq).
    destruct (Hfail rq Hpage) as [message Hup].
    assert (1 <= 1 <= limit / 50 + 1) as Hk.
    { pose proof (Z.div_pos limit 50). lia. }
    unfold fetch_vinted_items, bind.
    rewrite (fetch_loop_at_page upstream _ _ _ 1 ([], 0) w w Hk) by reflexivity.
    simpl. unfold bind at 1.
    by rewrite (page_body_failed _ _ _ _ _ _ _ _ _ (Hrq w) Hup).
  - destruct (page_loop_no_items upstream search_term category limit ([], 0)
                Hcat Hempty (seqZ 1 (limit / 50 + 1)) w) as [w' Hloop].
    by rewrite (fetch_after_loop _ parse _ _ _ _ _ _ Hloop).
Qed.

Lemma fetch_without_records_raises_witness :
  (fetch_vinted_items upstream_down digits_parser "iPhone" "Electronics" 100 fresh_world).1
  = Raise (KeyError "Created") /\
  (fetch_vinted_items upstream_empty digits_parser "iPhone" "All" 100 fresh_world).1
  = Raise (KeyError "Created").
Proof.
  split.
  - apply fetch_without_records_raises.
    + right. vm_compute. eexists. reflexivity.
    + left. split; [discriminate|]. intros rq _. by exists "timeout".
  - apply fetch_without_records_raises.
    + left. reflexivity.
    + right. intros rq. right. reflexivity.
Defined.

(** ** Snapshot Differ *)

Lemma filter_agree {A : Type} (P Q : A -> Prop)
      `{forall x, Decision (P x)} `{forall x, Decision (Q x)} (l : list A) :
  (forall x, x ∈ l -> P x <-> Q x) ->
  filter P l = filter Q l.
Proof.
  induction l as [|a l IH]; intros HPQ; [reflexivity|].
  rewrite !filter_cons.
  rewrite IH by (intros x Hx; apply HPQ; by right).
  pose proof (HPQ a ltac:(by left)) as Ha.
  destruct (decide (P a)), (decide (Q a)); tauto.
Qed.

Lemma filter_none {A : Type} (P : A -> Prop) `{forall x, Decision (P x)} (l : list A) :
  (forall x, x ∈ l -> ~ P x) ->
  filter P l = [].
Proof.
  induction l as [|a l IH]; intros HP; [reflexivity|].
  rewrite filter_cons_False by (apply HP; by left).
  apply IH. intros x Hx. apply HP. by right.
Qed.

(** The rows that [isin] keeps are those whose identifier is not among the
    previous ones. *)
Lemma new_ids_filter (cur prev : list Listing) :
  filter (fun r => ID r ∈ (list_to_set (ID <$> cur) ∖ list_to_set (ID <$> prev) : gset Z)) cur
  = filter (fun r => ID r ∉ ID <$> prev) cur.
Proof.
  apply filter_agree. intros r Hr.
  rewrite elem_of_difference, !elem_of_list_to_set.
  split; [tauto|]. intros Hnew. split; [|done].
  apply list_elem_of_fmap. by exists r.
Qed.

(** What one call does on a table of listings, with and without a snapshot
    on disk. *)
Lemma detect_new_items_first_run (cur : list Listing) (w : World) :
  previous_results_csv w = None ->
  detect_new_items (Table cur) w
  = (Ok (Table cur),
     mkWorld (favorites_json w) (Some (Table cur)) (requests_sent w) (errors_shown w)).
Proof.
  intros Hnone. unfold detect_new_items, bind, path_exists_previous.
  rewrite Hnone. reflexivity.
Qed.

Lemma detect_new_items_later_run (cur prev : list Listing) (w : World) :
  previous_results_csv w = Some (Table prev) ->
  detect_new_items (Table cur) w
  = (Ok (Table (filter (fun r => ID r ∉ ID <$> prev) cur)),
     mkWorld (favorites_json w) (Some (Table cur)) (requests_sent w) (errors_shown w)).
Proof.
  intros Hprev.
  unfold detect_new_items, bind, path_exists_previous, read_csv, getitem_ID, ret.
  rewrite Hprev. simpl. rewrite Hprev. unfold to_csv. simpl.
  by rewrite new_ids_filter.
Qed.

Lemma snapshot_readable_cases (w : World) :
  snapshot_readable w ->
  previous_results_csv w = None \/ exists prev, previous_results_csv w = Some (Table prev).
Proof.
  unfold snapshot_readable. destruct (previous_results_csv w) as [[|prev]|]; eauto. done.
Qed.

Lemma detect_new_items_snapshot (cur : list Listing) (w : World) :
  snapshot_readable w ->
  previous_results_csv (detect_new_items (Table cur) w).2 = Some (Table cur).
Proof.
  intros [Hnone|[prev Hprev]]%snapshot_readable_cases.
  - by rewrite detect_new_items_first_run.
  - by rewrite (detect_new_items_later_run cur prev).
Qed.

(** C2: with a snapshot on disk, [detect_new_items] returns the rows of the
    current table whose identifier is not among the snapshot's, in the order
    of the current table. *)
Theorem detect_new_items_returns_unseen (cur prev : list Listing) (w : World) :
  previous_results_csv w = Some (Table prev) ->
  (detect_new_items (Table cur) w).1
  = Ok (Table (filter (fun r => ID r ∉ ID <$> prev) cur)).
Proof. intros Hprev. by rewrite (detect_new_items_later_run cur prev). Qed.

Lemma detect_new_items_returns_unseen_witness :
  (detect_new_items
     (Table [sample_listing 2; sample_listing 3; sample_listing 4])
     (mkWorld None (Some (Table [sample_listing 1; sample_listing 2; sample_listing 3])) [] [])).1
  = Ok (Table [sample_listing 4]).
Proof.
  apply (detect_new_items_returns_unseen
           [sample_listing 2; sample_listing 3; sample_listing 4]
           [sample_listing 1; sample_listing 2; sample_listing 3]).
  reflexivity.
Defined.

(** C6: after a call on a table of listings, the snapshot file holds exactly
    that table, whether there was no snapshot before or one that was read
    for the comparison. *)
Theorem snapshot_is_replaced_by_current (cur : list Listing) (w : World) :
  snapshot_readable w ->
  previous_results_csv (detect_new_items (Table cur) w).2 = Some (Table cur).
Proof. apply detect_new_items_snapshot. Qed.

Lemma snapshot_is_replaced_by_current_witness :
  previous_results_csv
    (detect_new_items (Table [sample_listing 4])
       (mkWorld None (Some (Table [sample_listing 1; sample_listing 2])) [] [])).2
  = Some (Table [sample_listing 4]) /\
  previous_results_csv (detect_new_items (Table [sample_listing 4]) fresh_world).2
  = Some (Table [sample_listing 4]).
Proof.
  split; apply snapshot_is_replaced_by_current; discriminate.
Defined.

(** C7: a second call with the same table returns a table without rows. *)
Theorem second_call_returns_nothing (cur : list Listing) (w : World) :
  snapshot_readable w ->
  (detect_new_items (Table cur) (detect_new_items (Table cur) w).2).1 = Ok (Table []).
Proof.
  intros Hw. pose proof (detect_new_items_snapshot cur w Hw) as Hsnap.
  rewrite (detect_new_items_later_run cur cur _ Hsnap). simpl. f_equal. f_equal.
  apply filter_none. intros r Hr Hnew. apply Hnew.
  apply list_elem_of_fmap. by exists r.
Qed.

Lemma second_call_returns_nothing_witness :
  (detect_new_items (Table [sample_listing 1; sample_listing 2])
     (detect_new_items (Table [sample_listing 1; sample_listing 2]) fresh_world).2).1
  = Ok (Table []).
Proof. apply second_call_returns_nothing. discriminate. Defined.

(** C8: no copy is dropped before the comparison: for an identifier that is
    not in the snapshot, every row of the current table with that
    identifier is in the result, as many times and in the same order as in
    the current table. *)
Theorem duplicates_pass_independently (cur : list Listing) (x : Z) (w : World) :
  snapshot_readable w ->
  x ∉ snapshot_ids w ->
  exists new_rows,
    (detect_new_items (Table cur) w).1 = Ok (Table new_rows) /\
    filter (fun r => ID r = x) new_rows = filter (fun r => ID r = x) cur.
Proof.
  unfold snapshot_ids. intros [Hnone|[prev Hprev]]%snapshot_readable_cases Hx.
  - exists cur. by rewrite detect_new_items_first_run.
  - rewrite Hprev in Hx. eexists. rewrite (detect_new_items_later_run cur prev _ Hprev).
    split; [reflexivity|]. rewrite list_filter_filter.
    apply filter_agree. intros r _. split; [tauto|]. intros ->. done.
Qed.

Lemma duplicates_pass_independently_witness :
  exists new_rows,
    (detect_new_items
       (Table [sample_listing 7; sample_listing 2; sample_listing 7])
       (mkWorld None (Some (Table [sample_listing 2])) [] [])).1 = Ok (Table new_rows) /\
    filter (fun r => ID r = 7) new_rows
    = filter (fun r => ID r = 7) [sample_listing 7; sample_listing 2; sample_listing 7].
Proof.
  apply duplicates_pass_independently; [discriminate|].
  simpl. intros Hin. apply list_elem_of_singleton in Hin. discriminate.
Defined.

(** ** Favorites Store *)

Lemma load_favorites_spec (w : World) : load_favorites w = (Ok (favorites_of w), w).
Proof. unfold load_favorites, favorites_of. by destruct (favorites_json w). Qed.

Lemma save_favorite_spec (name : string) (query : SearchQuery) (w : World) :
  save_favorite name query w
  = (Ok tt, mkWorld (Some (<[name := query]> (favorites_of w)))
                    (previous_results_csv w) (requests_sent w) (errors_shown w)).
Proof. unfold save_favorite, bind. by rewrite load_favorites_spec. Qed.

(** C9: after [save_favorite name q] and then [save_favorite name q2],
    [load_favorites] returns the mapping that was there before with [name]
    bound to [q2]: [name] has that one entry, every other name has the entry
    it had, and no other name appears. Starting without a file, the result
    is the one entry [name : q2]. *)
Theorem save_twice_last_write_wins (name : string) (q q2 : SearchQuery) (w : World) :
  let w2 := (save_favorite name q2 (save_favorite name q w).2).2 in
  load_favorites w2 = (Ok (<[name := q2]> (favorites_of w)), w2) /\
  favorites_of w2 !! name = Some q2 /\
  (forall other, other <> name -> favorites_of w2 !! other = favorites_of w !! other) /\
  dom (favorites_of w2) = {[name]} ∪ dom (favorites_of w) /\
  (favorites_json w = None -> favorites_of w2 = {[name := q2]}).
Proof.
  intros w2.
  assert (favorites_of w2 = <[name := q2]> (favorites_of w)) as Hfav.
  { unfold w2. rewrite !save_favorite_spec. simpl. unfold favorites_of at 1. simpl.
    unfold favorites_of at 1. simpl. apply insert_insert_eq. }
  rewrite load_favorites_spec, Hfav. repeat split.
  - apply lookup_insert_eq.
  - intros other Hother. by apply lookup_insert_ne.
  - apply dom_insert_L.
  - intros Hnone. unfold favorites_of. rewrite Hnone. simpl. apply insert_empty.
Qed.

(** ** Further properties the specification lists *)

(** X2: the first call, without a snapshot file, returns the current table
    unchanged and writes it as the snapshot; nothing else changes. *)
Theorem first_call_returns_current (cur : list Listing) (w : World) :
  previous_results_csv w = None ->
  detect_new_items (Table cur) w
  = (Ok (Table cur),
     mkWorld (favorites_json w) (Some (Table cur)) (requests_sent w) (errors_shown w)).
Proof. apply detect_new_items_first_run. Qed.

Lemma first_call_returns_current_witness :
  detect_new_items (Table [sample_listing 1; sample_listing 2]) fresh_world
  = (Ok (Table [sample_listing 1; sample_listing 2]),
     mkWorld None (Some (Table [sample_listing 1; sample_listing 2])) [] []).
Proof. apply first_call_returns_current. reflexivity. Defined.

Lemma condition_unknown (n : Z) :
  ~ (1 <= n <= 5) -> dict_get CONDITION_MAP n = None.
Proof.
  intros Hn. unfold CONDITION_MAP. simpl. repeat case_decide; try lia. reflexivity.
Qed.

(** X3: a record without [brand], or whose brand has no [title], gets the brand
    "Unknown"; a record without [status_id], or with one outside 1..5, gets
    the condition "Unknown". *)
Theorem normalize_defaults (item : RawItem) (row : Listing) (w w' : World) :
  normalize item w = (Ok row, w') ->
  (raw_brand item = None \/ raw_brand item = Some (mkRawBrand None) ->
   Brand row = "Unknown") /\
  (raw_status_id item = None \/
   (exists n, raw_status_id item = Some n /\ ~ (1 <= n <= 5)) ->
   Condition row = "Unknown").
Proof.
  intros Hrow.
  assert (Brand row = default "Unknown"
                        (brand_title (default (mkRawBrand None) (raw_brand item))) /\
          Condition row = default "Unknown"
                            (dict_get CONDITION_MAP (default 0 (raw_status_id item))))
    as [-> ->].
  { revert Hrow. unfold normalize. py_unfold.
    destruct (raw_id item), (raw_title item), (raw_price item), (raw_url item);
      intros [= <- _]; split; reflexivity. }
  split.
  - intros [->| ->]; reflexivity.
  - intros [->|(n & -> & Hn)]; [reflexivity|].
    change (default 0 (Some n)) with n. by rewrite (condition_unknown n Hn).
Qed.

Lemma normalize_defaults_witness :
  Brand (sample_listing 1) = "Unknown" /\ Condition (sample_listing 1) = "Unknown".
Proof.
  pose proof (normalize_defaults
                (mkRawItem (Some 1) (Some "item") (Some "10.0") None (Some 0)
                           (Some "/items/x") None)
                (mkListing 1 "item" "10.0" "Unknown" "Unknown"
                           "https://www.vinted.fr/items/x" (Text ""))
                fresh_world fresh_world eq_refl) as [Hbrand Hcondition].
  split.
  - apply Hbrand. by left.
  - apply Hcondition. right. exists 0. split; [reflexivity|lia].
Defined.

(** X4: the category filter of a request: none for "All", and for every other
    name of [CATEGORY_MAP] the identifier the table gives, which is never
    null. *)
Theorem category_resolves_to_catalog_id (search_term name : string) (v : option Z)
        (p : Z) (w : World) :
  (name, v) ∈ CATEGORY_MAP ->
  build_params search_term "All" p w = (Ok (mkRequest search_term 50 p None), w) /\
  (name <> "All" ->
   is_Some v /\
   build_params search_term name p w = (Ok (mkRequest search_term 50 p (Some v)), w)).
Proof.
  intros Hin. split; [reflexivity|]. intros Hname.
  unfold CATEGORY_MAP in Hin.
  repeat (apply elem_of_cons in Hin as [[= -> ->]|Hin]; [try done; by split|]).
  by apply elem_of_nil in Hin.
Qed.

Lemma category_resolves_to_catalog_id_witness :
  build_params "iPhone" "All" 1 fresh_world = (Ok (mkRequest "iPhone" 50 1 None), fresh_world) /\
  ("Women" <> "All" ->
   is_Some (Some 1904) /\
   build_params "iPhone" "Women" 1 fresh_world
   = (Ok (mkRequest "iPhone" 50 1 (Some (Some 1904))), fresh_world)).
Proof.
  apply category_resolves_to_catalog_id.
  unfold CATEGORY_MAP. apply elem_of_cons. right. apply elem_of_cons. right.
  apply elem_of_cons. by left.
Defined.

(** ** Listing Fetcher: what a fetch does to the world *)

Lemma build_params_shape (search_term category : string) (p : Z) (rq : Request) (w w' : World) :
  build_params search_term category p w = (Ok rq, w') ->
  search_text rq = search_term /\ per_page rq = 50 /\ page rq = p.
Proof.
  unfold build_params. py_unfold. case_decide.
  - destruct (dict_get CATEGORY_MAP category); [|discriminate]. by intros [= <- <-].
  - by intros [= <- <-].
Qed.

Lemma build_params_world (search_term category : string) (p : Z) (w : World) :
  (build_params search_term category p w).2 = w.
Proof.
  unfold build_params. py_unfold. case_decide; [|reflexivity].
  by destruct (dict_get CATEGORY_MAP category).
Qed.

Lemma fetch_effects_refl (w : World) : fetch_effects w w [].
Proof. unfold fetch_effects. rewrite app_nil_r. auto. Qed.

(** The loop over the pages, whatever its outcome: the pages requested are
    the first ones of the list, in order and once each, and a message is
    shown only when the loop is left after a failed request. *)
Lemma page_loop_effects (upstream : Request -> Response) (search_term category : string)
      (limit : Z) (l : list Z) :
  forall s w r w',
    for_each (page_body upstream search_term category limit) l s w = (r, w') ->
    exists news,
      fetch_effects w w' news /\
      (page <$> news) `prefix_of` l /\
      Forall (fun rq => search_text rq = search_term /\ per_page rq = 50) news /\
      ((exists s', r = Ok (Next s')) -> errors_shown w' = errors_shown w /\ page <$> news = l).
Proof.
  induction l as [|p l IH]; intros s w r w'; simpl.
  - intros [= <- <-]. exists []. split; [apply fetch_effects_refl|].
    split; [done|]. split; [constructor|]. done.
  - unfold bind at 1.
    destruct (build_params search_term category p w) as [[rq|e] w1] eqn:Hrq.
    + destruct (build_params_inv _ _ _ _ _ _ Hrq) as (-> & _ & _ & _).
      destruct (build_params_shape _ _ _ _ _ _ Hrq) as (Hterm & Hper & Hpage).
      destruct (upstream rq) as [message|data_items] eqn:Hup.
      * rewrite (page_body_failed _ _ _ _ _ _ _ _ _ Hrq Hup). intros [= <- <-].
        exists [rq]. split.
        { unfold fetch_effects. simpl. do 3 (split; [reflexivity|]). right. eauto. }
        split; [csimpl; rewrite Hpage; apply prefix_cons, prefix_nil|].
        split; [by constructor|]. intros [s' [=]].
      * rewrite (page_body_answered _ _ _ _ _ _ _ _ _ Hrq Hup).
        pose proof (item_loop_world limit (default [] data_items) s (log_request rq w)) as Hw.
        destruct (for_each (item_body limit) _ s (log_request rq w)) as [[c|e] w2];
          simpl in Hw; subst w2.
        -- intros Hrest.
           apply IH in Hrest as (news & (Hfav & Hprev & Hreq & Herr) & Hpre & Hall & Hnext).
           exists (rq :: news). simpl in *. split.
           { unfold fetch_effects. do 2 (split; [done|]).
             split; [by rewrite Hreq, <- app_assoc|done]. }
           split; [csimpl; rewrite Hpage; by apply prefix_cons|].
           split; [by constructor|].
           intros Hr. destruct (Hnext Hr) as [Herr' Hpages].
           split; [done|]. f_equal; [exact Hpage|exact Hpages].
        -- intros [= <- <-]. exists [rq]. split.
           { unfold fetch_effects. simpl. do 3 (split; [reflexivity|]). by left. }
           split; [csimpl; rewrite Hpage; apply prefix_cons, prefix_nil|].
           split; [by constructor|]. intros [s' [=]].
    + unfold page_body. unfold bind at 1. rewrite Hrq. intros [= <- <-].
      pose proof (build_params_world search_term category p w) as Hw.
      rewrite Hrq in Hw. simpl in Hw. subst w1.
      exists []. split; [apply fetch_effects_refl|]. split; [apply prefix_nil|].
      split; [constructor|]. intros [s' [=]].
Qed.

(** X5: whatever a fetch returns or raises, it leaves the favorites file and
    the snapshot file as they were, shows at most one message, and the
    requests it sends are for the pages 1, 2, ... in order, each page once,
    never beyond page [limit // 50 + 1], all with the search term and 50
    records per page. *)
Theorem fetch_sends_consecutive_pages
        (upstream : Request -> Response) (parse : string -> option datetime)
        (search_term category : string) (limit : Z) (w : World) :
  exists news,
    fetch_effects w (fetch_vinted_items upstream parse search_term category limit w).2 news /\
    (page <$> news) `prefix_of` seqZ 1 (limit / 50 + 1) /\
    Forall (fun rq => search_text rq = search_term /\ per_page rq = 50) news.
Proof.
  unfold fetch_vinted_items, bind.
  destruct (fetch_loop upstream search_term category limit w) as [r w1] eqn:Hloop.
  destruct (page_loop_effects _ _ _ _ _ _ _ _ _ Hloop) as (news & Heff & Hpre & Hall & _).
  exists news. destruct r as [c|e]; [rewrite finish_world|]; auto.
Qed.

(** X6: with a negative limit there is no page to request: nothing is sent,
    not even the category is looked up, and the fetch raises at line 77. *)
Theorem negative_limit_sends_nothing
        (upstream : Request -> Response) (parse : string -> option datetime)
        (search_term category : string) (limit : Z) (w : World) :
  limit < 0 ->
  fetch_vinted_items upstream parse search_term category limit w
  = (Raise (KeyError "Created"), w).
Proof.
  intros Hneg. unfold fetch_vinted_items, bind, fetch_loop.
  rewrite seqZ_nil; [reflexivity|].
  pose proof (Z.div_lt_upper_bound limit 50 0 ltac:(lia) ltac:(lia)). lia.
Qed.

Lemma negative_limit_sends_nothing_witness :
  fetch_vinted_items full_pages digits_parser "iPhone" "Nowhere" (-1) fresh_world
  = (Raise (KeyError "Created"), fresh_world).
Proof. apply negative_limit_sends_nothing. lia. Defined.

(** X7: a category that is neither "All" nor a name of [CATEGORY_MAP] makes
    a fetch with a limit of 0 or more raise [KeyError] on that name before
    the first request is sent. *)
Theorem unknown_category_raises_before_any_request
        (upstream : Request -> Response) (parse : string -> option datetime)
        (search_term category : string) (limit : Z) (w : World) :
  0 <= limit ->
  category <> "All" ->
  dict_get CATEGORY_MAP category = None ->
  fetch_vinted_items upstream parse search_term category limit w
  = (Raise (KeyError category), w).
Proof.
  intros Hlimit Hall Hnone. unfold fetch_vinted_items, bind, fetch_loop.
  pose proof (Z.div_pos limit 50 Hlimit ltac:(lia)) as Hpages.
  rewrite seqZ_cons by lia. simpl. unfold bind at 1. unfold page_body. unfold bind at 1.
  unfold build_params. rewrite decide_True by done. rewrite Hnone. reflexivity.
Qed.

Lemma unknown_category_raises_before_any_request_witness :
  fetch_vinted_items full_pages digits_parser "iPhone" "Shoes" 100 fresh_world
  = (Raise (KeyError "Shoes"), fresh_world).
Proof.
  apply unknown_category_raises_before_any_request; [lia|discriminate|reflexivity].
Defined.

Lemma to_datetime_zip (parse : string -> option datetime) (rows : list Listing) :
  forall col, to_datetime parse (Created <$> rows) = Ok col ->
              Forall (fun r => exists d, Created r = Date d) (zip_with with_Created rows col).
Proof.
  induction rows as [|r rows IH]; csimpl; intros col.
  - intros [= <-]. constructor.
  - destruct (to_datetime_cell parse (Created r)) as [d|]; [|discriminate].
    destruct (to_datetime parse (Created <$> rows)) as [ds|]; [|discriminate].
    intros [= <-]. simpl. constructor; [by exists d|]. by apply IH.
Qed.

(** X8: a fetch never returns a table without rows or without columns:
    whenever it returns, the table has at least one listing, and the
    [Created] cell of every listing is a date (a time stamp or [NaT]). *)
Theorem fetch_returns_nonempty_converted_table
        (upstream : Request -> Response) (parse : string -> option datetime)
        (search_term category : string) (limit : Z) (df : DataFrame) (w w' : World) :
  fetch_vinted_items upstream parse search_term category limit w = (Ok df, w') ->
  exists r rows,
    df = Table (r :: rows) /\
    Forall (fun r => exists d, Created r = Date d) (r :: rows).
Proof.
  unfold fetch_vinted_items, bind.
  destruct (fetch_loop upstream search_term category limit w) as [[c|e] w1]; [|discriminate].
  unfold finish. py_unfold. destruct (ctl_state c).1 as [|r0 items]; [discriminate|].
  generalize (r0 :: items) (eq_refl : length (r0 :: items) = S (length items)).
  intros items0 Hlen.
  destruct (to_datetime parse (Created <$> items0)) as [col|] eqn:Hcol; [|discriminate].
  intros [= <- _]. pose proof (to_datetime_zip parse items0 col Hcol) as Hdates.
  apply to_datetime_length in Hcol. rewrite length_fmap in Hcol.
  destruct items0 as [|r1 items1]; [discriminate|].
  destruct col as [|d col]; [discriminate|]. simpl in *. eauto.
Qed.

Lemma fetch_returns_nonempty_converted_table_witness :
  exists r rows,
    Table [sample_listing 1; sample_listing 2] = Table (r :: rows) /\
    Forall (fun r => exists d, Created r = Date d) (r :: rows).
Proof.
  apply (fetch_returns_nonempty_converted_table
           fails_after_first_page digits_parser "iPhone" "All" 100 _ fresh_world
           (mkWorld None None [mkRequest "iPhone" 50 1 None; mkRequest "iPhone" 50 2 None]
                    ["Failed to fetch data: timeout"])).
  reflexivity.
Defined.

(** ** Listing Fetcher: how many listings, and in which order *)

Lemma well_formed_normalizes (parse : string -> option datetime) (item : RawItem) :
  well_formed parse item ->
  exists row, normalizes_to item row /\ convertible parse (Created row).
Proof.
  intros [Hreq Hconv]. destruct (normalize_present item Hreq) as [row Hrow].
  exists row. split; [exact Hrow|].
  by rewrite (normalize_created item row fresh_world fresh_world (Hrow _)).
Qed.

Lemma count_after_page_nil (limit fetched : Z) :
  count_after_page limit (Z.of_nat 0) fetched = fetched.
Proof. unfold count_after_page. repeat case_decide; lia. Qed.

Lemma count_after_page_stop (limit fetched : Z) (n : nat) :
  fetched + 1 >= limit ->
  count_after_page limit (Z.of_nat (S n)) fetched = fetched + 1.
Proof. intros Hge. unfold count_after_page. repeat case_decide; lia. Qed.

Lemma count_after_page_next (limit fetched : Z) (n : nat) :
  ~ fetched + 1 >= limit ->
  count_after_page limit (Z.of_nat n) (fetched + 1)
  = count_after_page limit (Z.of_nat (S n)) fetched.
Proof. intros Hlt. unfold count_after_page. repeat case_decide; lia. Qed.

(** The loop over the complete records of a page: the counter afterwards is
    [count_after_page]. *)
Lemma item_loop_exact (parse : string -> option datetime) (limit : Z) (l : list RawItem) :
  Forall (well_formed parse) l ->
  forall (items : list Listing) (fetched : Z) (w : World),
    Z.of_nat (length items) = fetched ->
    Forall (fun r => convertible parse (Created r)) items ->
    exists c,
      for_each (item_body limit) l (items, fetched) w = (Ok c, w) /\
      (ctl_state c).2 = count_after_page limit (Z.of_nat (length l)) fetched /\
      Z.of_nat (length (ctl_state c).1) = (ctl_state c).2 /\
      Forall (fun r => convertible parse (Created r)) (ctl_state c).1.
Proof.
  induction 1 as [|item l Hitem _ IH]; intros items fetched w Hlen Hconv.
  - exists (Next (items, fetched)). split; [reflexivity|].
    cbn [ctl_state fst snd length]. split; [by rewrite count_after_page_nil|by split].
  - destruct (well_formed_normalizes parse item Hitem) as (row & Hrow & Hrowconv).
    assert (Forall (fun r => convertible parse (Created r)) (items ++ [row])) as Hconv'.
    { apply Forall_app. split; [done|]. by constructor. }
    assert (Z.of_nat (length (items ++ [row])) = fetched + 1) as Hlen'.
    { rewrite length_app. simpl. lia. }
    cbn [for_each length]. unfold bind at 1. unfold item_body at 1. unfold bind at 1.
    rewrite Hrow. cbn [fst snd].
    destruct (decide (fetched + 1 >= limit)) as [Hge|Hlt].
    + exists (Stop (items ++ [row], fetched + 1)). split; [reflexivity|].
      cbn [ctl_state fst snd]. split; [by rewrite count_after_page_stop|by split].
    + destruct (IH (items ++ [row]) (fetched + 1) w Hlen' Hconv')
        as (c & Hrun & Hcount & Hlenc & Hconvc).
      exists c. split; [exact Hrun|].
      split; [by rewrite Hcount, count_after_page_next|by split].
Qed.

(** The loop over pages that all hold fifty complete records. *)
Lemma page_loop_exact (upstream : Request -> Response) (parse : string -> option datetime)
      (search_term category : string) (limit : Z) :
  category = "All" \/ is_Some (dict_get CATEGORY_MAP category) ->
  (forall rq, exists data,
      upstream rq = Body (Some data) /\ length data = 50%nat /\
      Forall (well_formed parse) data) ->
  forall (l : list Z) (items : list Listing) (fetched : Z) (w : World),
    Z.of_nat (length items) = fetched ->
    Forall (fun r => convertible parse (Created r)) items ->
    exists s' w',
      for_each (page_body upstream search_term category limit) l (items, fetched) w
      = (Ok (Next s'), w') /\
      s'.2 = count_after_pages limit (length l) fetched /\
      Z.of_nat (length s'.1) = s'.2 /\
      Forall (fun r => convertible parse (Created r)) s'.1.
Proof.
  intros Hcat Hfull. induction l as [|p l IH]; intros items fetched w Hlen Hconv; simpl.
  - exists (items, fetched), w. auto.
  - destruct (build_params_ok search_term category p Hcat) as (rq & _ & Hrq).
    destruct (Hfull rq) as (data & Hbody & Hfifty & Hwf).
    unfold bind at 1. rewrite (page_body_answered _ _ _ _ _ _ _ _ _ (Hrq w) Hbody). simpl.
    destruct (item_loop_exact parse limit data Hwf items fetched (log_request rq w) Hlen Hconv)
      as (c & -> & Hcount & Hlenc & Hconvc).
    destruct (ctl_state c) as [items1 fetched1] eqn:Hc. simpl in *.
    destruct (IH items1 fetched1 (log_request rq w) Hlenc Hconvc)
      as (s' & w' & Hrun & Hs' & Hlens & Hconvs).
    exists s', w'. split; [exact Hrun|].
    split; [rewrite Hs', Hcount, Hfifty; reflexivity|by split].
Qed.

Lemma count_after_pages_below (limit : Z) (n : nat) :
  forall fetched,
    fetched + 50 * Z.of_nat n <= limit ->
    count_after_pages limit n fetched = fetched + 50 * Z.of_nat n.
Proof.
  induction n as [|n IH]; intros fetched Hle; simpl; [lia|].
  unfold count_after_page. rewrite decide_False by lia.
  rewrite IH by lia. lia.
Qed.

Lemma count_after_pages_last (limit : Z) (n : nat) :
  forall fetched,
    count_after_pages limit (n + 1) fetched
    = count_after_page limit 50 (count_after_pages limit n fetched).
Proof. induction n as [|n IH]; intros fetched; simpl; [reflexivity|]. apply IH. Qed.

(** With fifty records on every page, the counter ends at the limit, or one
    over it when the limit is a multiple of fifty. *)
Lemma count_after_all_pages (limit : Z) :
  0 <= limit ->
  count_after_pages limit (Z.to_nat (limit / 50 + 1)) 0
  = limit + (if decide (limit `mod` 50 = 0) then 1 else 0).
Proof.
  intros Hlimit.
  pose proof (Z.div_mod limit 50 ltac:(lia)) as Hdiv.
  pose proof (Z.mod_pos_bound limit 50 ltac:(lia)) as Hmod.
  pose proof (Z.div_pos limit 50 Hlimit ltac:(lia)) as Hq.
  replace (Z.to_nat (limit / 50 + 1)) with (Z.to_nat (limit / 50) + 1)%nat by lia.
  rewrite count_after_pages_last, count_after_pages_below by lia.
  unfold count_after_page. repeat case_decide; lia.
Qed.

(** X9: when every page the upstream serves holds fifty complete records
    with acceptable dates, a fetch with a limit of 0 or more requests all
    [limit // 50 + 1] pages and returns exactly [limit] listings, or
    [limit + 1] when the limit is a multiple of fifty. *)
Theorem fetch_count_with_full_pages
        (upstream : Request -> Response) (parse : string -> option datetime)
        (search_term category : string) (limit : Z) (w : World) :
  category = "All" \/ is_Some (dict_get CATEGORY_MAP category) ->
  0 <= limit ->
  (forall rq, exists data,
      upstream rq = Body (Some data) /\ length data = 50%nat /\
      Forall (well_formed parse) data) ->
  exists rows w',
    fetch_vinted_items upstream parse search_term category limit w = (Ok (Table rows), w') /\
    Z.of_nat (length rows) = limit + (if decide (limit `mod` 50 = 0) then 1 else 0) /\
    page <$> requests_sent w' = (page <$> requests_sent w) ++ seqZ 1 (limit / 50 + 1).
Proof.
  intros Hcat Hlimit Hfull.
  destruct (page_loop_exact upstream parse search_term category limit Hcat Hfull
              (seqZ 1 (limit / 50 + 1)) [] 0 w eq_refl ltac:(constructor))
    as ([items fetched] & w' & Hloop & Hcount & Hlen & Hconv).
  cbn [fst snd] in *. rewrite length_seqZ, count_after_all_pages in Hcount by done.
  exists (stamped parse <$> items), w'.
  rewrite (fetch_after_loop upstream parse _ _ _ _ _ _ Hloop). cbn [ctl_state fst].
  split; [|split].
  - apply finish_convertible; [|done]. intros ->. simpl in Hlen.
    revert Hcount. rewrite <- Hlen. destruct (decide (limit `mod` 50 = 0)) as [Hm|Hm]; [lia|].
    intros Hzero. apply Hm. replace limit with 0 by lia. reflexivity.
  - rewrite length_fmap. lia.
  - by destruct (page_loop_next _ _ _ _ _ _ _ _ _ Hloop) as (Hreq & _).
Qed.

Lemma full_pages_are_full (rq : Request) :
  exists data,
    full_pages rq = Body (Some data) /\ length data = 50%nat /\
    Forall (well_formed digits_parser) data.
Proof.
  eexists. split; [reflexivity|]. split; [by rewrite length_fmap, length_seqZ|].
  apply Forall_fmap, Forall_forall. intros i _. split; [reflexivity|]. by left.
Qed.

Lemma fetch_count_with_full_pages_witness :
  exists rows w',
    fetch_vinted_items full_pages digits_parser "iPhone" "Men" 150 fresh_world
    = (Ok (Table rows), w') /\
    Z.of_nat (length rows) = 150 + (if decide (150 `mod` 50 = 0) then 1 else 0) /\
    page <$> requests_sent w' = (page <$> requests_sent fresh_world) ++ seqZ 1 (150 / 50 + 1).
Proof.
  apply fetch_count_with_full_pages.
  - right. by exists (Some 1905).
  - lia.
  - apply full_pages_are_full.
Defined.

(** The loop over the records of a page that fits under the limit appends
    all of them, in order. *)
Lemma item_loop_all (parse : string -> option datetime) (limit : Z) (l : list RawItem) :
  Forall (well_formed parse) l ->
  forall (items : list Listing) (fetched : Z) (w : World),
    fetched + Z.of_nat (length l) <= limit ->
    exists rows c,
      Forall2 normalizes_to l rows /\
      Forall (fun r => convertible parse (Created r)) rows /\
      for_each (item_body limit) l (items, fetched) w = (Ok c, w) /\
      ctl_state c = (items ++ rows, fetched + Z.of_nat (length l)).
Proof.
  induction 1 as [|item l Hitem _ IH]; intros items fetched w Hle.
  - exists [], (Next (items, fetched)). repeat split; try constructor.
    cbn [ctl_state length]. rewrite app_nil_r. f_equal. lia.
  - destruct (well_formed_normalizes parse item Hitem) as (row & Hrow & Hrowconv).
    cbn [length] in Hle.
    cbn [for_each length]. unfold bind at 1. unfold item_body at 1. unfold bind at 1.
    rewrite Hrow. cbn [fst snd].
    destruct (decide (fetched + 1 >= limit)) as [Hge|Hlt].
    + destruct l as [|item' l]; [|simpl in Hle; lia].
      exists [row], (Stop (items ++ [row], fetched + 1)).
      split; [by repeat constructor|]. split; [by repeat constructor|].
      split; [reflexivity|]. cbn [ctl_state length]. f_equal.
    + destruct (IH (items ++ [row]) (fetched + 1) w ltac:(lia))
        as (rows & c & Hnorm & Hconv & Hrun & Hstate).
      exists (row :: rows), c. split; [by constructor|]. split; [by constructor|].
      split; [exact Hrun|]. rewrite Hstate, <- app_assoc. simpl. f_equal. lia.
Qed.

(** The loop over pages whose records all fit under the limit. *)
Lemma page_loop_all (upstream : Request -> Response) (parse : string -> option datetime)
      (search_term category : string) (limit : Z) (l : list Z) (records : list (list RawItem)) :
  Forall2 (page_records upstream search_term category) l records ->
  Forall (well_formed parse) (concat records) ->
  forall (items : list Listing) (fetched : Z) (w : World),
    fetched + Z.of_nat (length (concat records)) <= limit ->
    exists rows w',
      Forall2 normalizes_to (concat records) rows /\
      Forall (fun r => convertible parse (Created r)) rows /\
      for_each (page_body upstream search_term category limit) l (items, fetched) w
      = (Ok (Next (items ++ rows, fetched + Z.of_nat (length (concat records)))), w').
Proof.
  induction 1 as [|p recs l records (rq & data & Hrq & Hbody & Hdata) _ IH];
    intros Hwf items fetched w Hle.
  - exists [], w. split; [constructor|]. split; [constructor|].
    simpl. rewrite app_nil_r. unfold ret. rewrite Z.add_0_r. reflexivity.
  - simpl in Hwf, Hle. apply Forall_app in Hwf as [Hwf1 Hwf2]. rewrite length_app in Hle.
    destruct (item_loop_all parse limit recs Hwf1 items fetched (log_request rq w) ltac:(lia))
      as (rows1 & c & Hnorm1 & Hconv1 & Hrun1 & Hstate1).
    destruct (IH Hwf2 (items ++ rows1) (fetched + Z.of_nat (length recs)) (log_request rq w)
                ltac:(lia)) as (rows2 & w' & Hnorm2 & Hconv2 & Hrun2).
    exists (rows1 ++ rows2), w'.
    split; [by apply Forall2_app|]. split; [by apply Forall_app|].
    cbn [for_each]. unfold bind at 1.
    rewrite (page_body_answered _ _ _ _ _ _ _ _ _ (Hrq w) Hbody), Hdata, Hrun1, Hstate1.
    rewrite Hrun2. simpl. rewrite length_app, <- app_assoc, Nat2Z.inj_add, Z.add_assoc.
    reflexivity.
Qed.

(** X10: when all pages are answered and the complete records they hold
    are no more than [limit] altogether (and at least one), the fetch
    returns exactly these records, normalised, in page order and then in the
    order within the page. *)
Theorem fetch_keeps_upstream_order
        (upstream : Request -> Response) (parse : string -> option datetime)
        (search_term category : string) (limit : Z)
        (records : list (list RawItem)) (w : World) :
  Forall2 (page_records upstream search_term category) (seqZ 1 (limit / 50 + 1)) records ->
  Forall (well_formed parse) (concat records) ->
  concat records <> [] ->
  Z.of_nat (length (concat records)) <= limit ->
  exists rows w',
    Forall2 normalizes_to (concat records) rows /\
    fetch_vinted_items upstream parse search_term category limit w
    = (Ok (Table (stamped parse <$> rows)), w').
Proof.
  intros Hpages Hwf Hne Hle.
  destruct (page_loop_all upstream parse search_term category limit _ _ Hpages Hwf [] 0 w
              ltac:(lia)) as (rows & w' & Hnorm & Hconv & Hloop).
  exists rows, w'. split; [exact Hnorm|].
  rewrite (fetch_after_loop upstream parse _ _ _ _ _ _ Hloop). cbn [ctl_state fst app].
  apply finish_convertible; [|done].
  intros ->. apply Forall2_nil_inv_r in Hnorm. done.
Qed.

Lemma fetch_keeps_upstream_order_witness :
  exists rows w',
    Forall2 normalizes_to
            (concat [[dated_item 1 "20240105"; dated_item 2 ""]; []]) rows /\
    fetch_vinted_items empty_date_page digits_parser "iPhone" "All" 50 fresh_world
    = (Ok (Table (stamped digits_parser <$> rows)), w').
Proof.
  apply fetch_keeps_upstream_order.
  - change (seqZ 1 (50 / 50 + 1)) with [1; 2].
    constructor; [|constructor; [|constructor]].
    + exists (mkRequest "iPhone" 50 1 None), (Some [dated_item 1 "20240105"; dated_item 2 ""]).
      by repeat split.
    + exists (mkRequest "iPhone" 50 2 None), (Some []). by repeat split.
  - constructor; [split; [reflexivity|right; by exists (Stamp 20240105)]|].
    constructor; [split; [reflexivity|by left]|]. constructor.
  - discriminate.
  - simpl. lia.
Defined.

(** ** Snapshot Differ: further properties *)

Lemma filter_all {A : Type} (P : A -> Prop) `{forall x, Decision (P x)} (l : list A) :
  (forall x, x ∈ l -> P x) ->
  filter P l = l.
Proof.
  induction l as [|a l IH]; intros HP; [reflexivity|].
  rewrite filter_cons_True by (apply HP; by left).
  f_equal. apply IH. intros x Hx. apply HP. by right.
Qed.

(** One call on a table of listings when the snapshot is readable, the
    first run included: the snapshot's identifiers are filtered out and the
    table becomes the snapshot. *)
Lemma detect_new_items_readable (cur : list Listing) (w : World) :
  snapshot_readable w ->
  detect_new_items (Table cur) w
  = (Ok (Table (filter (fun r => ID r ∉ snapshot_ids w) cur)),
     mkWorld (favorites_json w) (Some (Table cur)) (requests_sent w) (errors_shown w)).
Proof.
  unfold snapshot_ids. intros [Hnone|[prev Hprev]]%snapshot_readable_cases.
  - rewrite (detect_new_items_first_run cur w Hnone), Hnone.
    rewrite filter_all; [reflexivity|]. intros r _. apply not_elem_of_nil.
  - by rewrite (detect_new_items_later_run cur prev w Hprev), Hprev.
Qed.

Lemma detect_new_items_unreadable (df : DataFrame) (w : World) :
  previous_results_csv w = Some NoColumns ->
  detect_new_items df w = (Raise EmptyDataError, w).
Proof.
  intros Hbad. unfold detect_new_items, bind, path_exists_previous, read_csv.
  rewrite Hbad. simpl. by rewrite Hbad.
Qed.

Lemma detect_new_items_no_file (df : DataFrame) (w : World) :
  previous_results_csv w = None ->
  detect_new_items df w
  = (Ok df, mkWorld (favorites_json w) (Some df) (requests_sent w) (errors_shown w)).
Proof.
  intros Hnone. unfold detect_new_items, bind, path_exists_previous.
  rewrite Hnone. reflexivity.
Qed.

Lemma detect_new_items_columnless (prev : list Listing) (w : World) :
  previous_results_csv w = Some (Table prev) ->
  detect_new_items NoColumns w = (Raise (KeyError "ID"), w).
Proof.
  intros Hprev. unfold detect_new_items, bind, path_exists_previous, read_csv.
  rewrite Hprev. simpl. by rewrite Hprev.
Qed.

(** X11: the history is one call deep: a call reports the listings whose
    identifier was not in the table of the call before it, whatever the
    snapshot held earlier, and leaves its own table as the snapshot. *)
Theorem diff_is_against_the_previous_call (a b : list Listing) (w : World) :
  snapshot_readable w ->
  let w1 := (detect_new_items (Table a) w).2 in
  (detect_new_items (Table b) w1).1 = Ok (Table (filter (fun r => ID r ∉ ID <$> a) b)) /\
  previous_results_csv (detect_new_items (Table b) w1).2 = Some (Table b).
Proof.
  intros Hw w1.
  assert (previous_results_csv w1 = Some (Table a)) as Hsnap.
  { unfold w1. by rewrite detect_new_items_readable. }
  by rewrite (detect_new_items_later_run b a w1 Hsnap).
Qed.

Lemma diff_is_against_the_previous_call_witness :
  let w1 := (detect_new_items (Table [sample_listing 5; sample_listing 6])
               (mkWorld None (Some (Table [sample_listing 1; sample_listing 7])) [] [])).2 in
  (detect_new_items (Table [sample_listing 1; sample_listing 6; sample_listing 7]) w1).1
  = Ok (Table (filter (fun r => ID r ∉ ID <$> [sample_listing 5; sample_listing 6])
                      [sample_listing 1; sample_listing 6; sample_listing 7])) /\
  previous_results_csv
    (detect_new_items (Table [sample_listing 1; sample_listing 6; sample_listing 7]) w1).2
  = Some (Table [sample_listing 1; sample_listing 6; sample_listing 7]).
Proof. apply diff_is_against_the_previous_call. discriminate. Defined.

(** X12: [detect_new_items] touches nothing but the snapshot file, and when
    it raises it has not written that either: the world is as before. *)
Theorem detect_new_items_touches_only_the_snapshot (df : DataFrame) (w : World) :
  let out := detect_new_items df w in
  favorites_json out.2 = favorites_json w /\
  requests_sent out.2 = requests_sent w /\
  errors_shown out.2 = errors_shown w /\
  (forall e, out.1 = Raise e -> out.2 = w) /\
  (forall new, out.1 = Ok new -> previous_results_csv out.2 = Some df).
Proof.
  intros out. unfold out.
  destruct (previous_results_csv w) as [[|prev]|] eqn:Hprev.
  - rewrite (detect_new_items_unreadable df w Hprev). simpl.
    repeat split; auto. discriminate.
  - destruct df as [|cur].
    + rewrite (detect_new_items_columnless prev w Hprev). simpl.
      repeat split; auto. discriminate.
    + rewrite (detect_new_items_later_run cur prev w Hprev). simpl.
      repeat split; auto. discriminate.
  - rewrite (detect_new_items_no_file df w Hprev). simpl.
    repeat split; auto. discriminate.
Qed.

(** X13: a table without columns given to [detect_new_items] when there is
    no snapshot file is returned and written as the snapshot; from then on
    every call, whatever its table, raises on reading the snapshot and does
    not replace it. *)
Theorem empty_snapshot_blocks_every_later_call (df : DataFrame) (w : World) :
  previous_results_csv w = None ->
  let w1 := (detect_new_items NoColumns w).2 in
  (detect_new_items NoColumns w).1 = Ok NoColumns /\
  detect_new_items df w1 = (Raise EmptyDataError, w1).
Proof.
  intros Hnone w1.
  unfold w1. rewrite (detect_new_items_no_file NoColumns w Hnone). split; [reflexivity|].
  by apply detect_new_items_unreadable.
Qed.

Lemma empty_snapshot_blocks_every_later_call_witness :
  let w1 := (detect_new_items NoColumns fresh_world).2 in
  (detect_new_items NoColumns fresh_world).1 = Ok NoColumns /\
  detect_new_items (Table [sample_listing 1]) w1 = (Raise EmptyDataError, w1).
Proof. apply empty_snapshot_blocks_every_later_call. reflexivity. Defined.

(** ** Favorites Store: further properties *)

(** X14: a sequence of saves never removes a name: afterwards the mapping
    is the one before with the saved entries written in order, every name
    that was there is still there, and nothing but the favorites file has
    changed. *)
Theorem saves_never_delete (ops : list (string * SearchQuery)) (w : World) :
  let w' := foldl (fun w op => (save_favorite op.1 op.2 w).2) w ops in
  favorites_of w' = foldl (fun m op => <[op.1 := op.2]> m) (favorites_of w) ops /\
  dom (favorites_of w) ⊆ dom (favorites_of w') /\
  previous_results_csv w' = previous_results_csv w /\
  requests_sent w' = requests_sent w /\
  errors_shown w' = errors_shown w.
Proof.
  revert w. induction ops as [|[name q] ops IH]; intros w; simpl.
  - repeat split; auto.
  - rewrite save_favorite_spec. simpl.
    destruct (IH (mkWorld (Some (<[name := q]> (favorites_of w)))
                          (previous_results_csv w) (requests_sent w) (errors_shown w)))
      as (Hfav & Hdom & Hprev & Hreq & Herr).
    simpl in *. split; [exact Hfav|]. split; [|by repeat split].
    etrans; [|exact Hdom]. unfold favorites_of at 2. simpl.
    rewrite dom_insert_L. apply union_subseteq_r.
Qed.

(** ** The page *)

Lemma fetch_files_unchanged (upstream : Request -> Response) (parse : string -> option datetime)
      (search_term category : string) (limit : Z) (r : result DataFrame) (w w1 : World) :
  fetch_vinted_items upstream parse search_term category limit w = (r, w1) ->
  favorites_json w1 = favorites_json w /\ previous_results_csv w1 = previous_results_csv w.
Proof.
  unfold fetch_vinted_items, bind.
  destruct (fetch_loop upstream search_term category limit w) as [rc w0] eqn:Hloop.
  destruct (page_loop_effects _ _ _ _ _ _ _ _ _ Hloop) as (news & (Hfav & Hprev & _) & _).
  destruct rc as [c|e].
  - pose proof (finish_world parse (ctl_state c).1 w0) as Hw.
    destruct (finish parse (ctl_state c).1 w0) as [r' w']. simpl in Hw. subst w'.
    by intros [= _ <-].
  - by intros [= _ <-].
Qed.

Lemma fetch_ok_table (upstream : Request -> Response) (parse : string -> option datetime)
      (search_term category : string) (limit : Z) (df : DataFrame) (w w1 : World) :
  fetch_vinted_items upstream parse search_term category limit w = (Ok df, w1) ->
  exists cur, df = Table cur /\ cur <> [].
Proof.
  unfold fetch_vinted_items, bind.
  destruct (fetch_loop upstream search_term category limit w) as [[c|e] w0]; [|discriminate].
  intros Hfinish. pose proof (finish_length parse (ctl_state c).1) as Hlen.
  revert Hfinish. unfold finish. py_unfold.
  destruct (ctl_state c).1 as [|r0 items] eqn:Hitems; [discriminate|].
  destruct (to_datetime parse (Created <$> r0 :: items)) as [col|] eqn:Hcol; [|discriminate].
  intros [= <- _]. eexists. split; [reflexivity|].
  apply to_datetime_length in Hcol. destruct col as [|d col]; [discriminate|]. discriminate.
Qed.

(** The outcome of a loop does not depend on the world when that of its
    body does not. *)
Lemma for_each_result_indep {X S : Type} (body : X -> S -> Py (ctl S)) (l : list X) :
  (forall x s w1 w2, (body x s w1).1 = (body x s w2).1) ->
  forall s w1 w2, (for_each body l s w1).1 = (for_each body l s w2).1.
Proof.
  intros Hbody. induction l as [|x l IH]; intros s w1 w2; simpl; [reflexivity|].
  unfold bind. specialize (Hbody x s w1 w2).
  destruct (body x s w1) as [[[s1|s1]|e1] w1'], (body x s w2) as [[[s2|s2]|e2] w2'];
    simpl in Hbody; try discriminate; injection Hbody as <-; auto.
Qed.

Lemma normalize_result_indep (item : RawItem) (w1 w2 : World) :
  (normalize item w1).1 = (normalize item w2).1.
Proof.
  destruct (missing_required item) as [key|] eqn:E.
  - by rewrite !(normalize_missing _ _ _ E).
  - destruct (normalize_present _ E) as [row Hrow]. by rewrite !Hrow.
Qed.

Lemma item_loop_result_indep (limit : Z) (l : list RawItem) (s : fetch_state) (w1 w2 : World) :
  (for_each (item_body limit) l s w1).1 = (for_each (item_body limit) l s w2).1.
Proof.
  apply for_each_result_indep. clear. intros item s w1 w2. unfold item_body, bind.
  pose proof (normalize_result_indep item w1 w2) as Hn.
  destruct (normalize item w1) as [[r1|e1] w1'], (normalize item w2) as [[r2|e2] w2'];
    simpl in Hn; try discriminate; injection Hn as <-; [|reflexivity].
  case_decide; reflexivity.
Qed.

Lemma page_body_result_indep (upstream : Request -> Response) (search_term category : string)
      (limit p : Z) (s : fetch_state) (w1 w2 : World) :
  (page_body upstream search_term category limit p s w1).1
  = (page_body upstream search_term category limit p s w2).1.
Proof.
  destruct (build_params search_term category p w1) as [[rq|e] w1'] eqn:Hrq.
  - destruct (build_params_inv _ _ _ _ _ _ Hrq) as (-> & _ & _ & Hall).
    destruct (upstream rq) as [message|data_items] eqn:Hup.
    + by rewrite !(page_body_failed _ _ _ _ _ _ _ _ _ (Hall _) Hup).
    + rewrite !(page_body_answered _ _ _ _ _ _ _ _ _ (Hall _) Hup).
      pose proof (item_loop_result_indep limit (default [] data_items) s
                    (log_request rq w1) (log_request rq w2)) as Hi.
      destruct (for_each (item_body limit) _ s (log_request rq w1)) as [[c1|e1] w1''],
               (for_each (item_body limit) _ s (log_request rq w2)) as [[c2|e2] w2''];
        simpl in Hi; try discriminate; injection Hi as <-; reflexivity.
  - unfold page_body, bind. rewrite Hrq.
    assert (build_params search_term category p w2 = (Raise e, w2)) as ->; [|reflexivity].
    revert Hrq. unfold build_params. py_unfold. case_decide; [|discriminate].
    destruct (dict_get CATEGORY_MAP category); [discriminate|]. by intros [= <- _].
Qed.

(** What a fetch returns or raises does not depend on the files nor on what
    was sent or shown before. *)
Lemma fetch_result_indep (upstream : Request -> Response) (parse : string -> option datetime)
      (search_term category : string) (limit : Z) (w1 w2 : World) :
  (fetch_vinted_items upstream parse search_term category limit w1).1
  = (fetch_vinted_items upstream parse search_term category limit w2).1.
Proof.
  unfold fetch_vinted_items, bind, fetch_loop.
  pose proof (for_each_result_indep (page_body upstream search_term category limit)
                (seqZ 1 (limit / 50 + 1))
                (page_body_result_indep upstream search_term category limit)
                ([], 0) w1 w2) as Hloop.
  destruct (for_each _ _ _ w1) as [[c1|e1] w1'], (for_each _ _ _ w2) as [[c2|e2] w2'];
    simpl in Hloop; try discriminate; injection Hloop as <-; [|reflexivity].
  unfold finish. py_unfold. destruct (ctl_state c1).1; [reflexivity|].
  by destruct (to_datetime parse _).
Qed.

Lemma snapshot_ids_files (w w1 : World) :
  previous_results_csv w1 = previous_results_csv w ->
  snapshot_ids w1 = snapshot_ids w.
Proof. unfold snapshot_ids. by intros ->. Qed.

Section PageProperties.

Variable upstream : Request -> Response.
Variable parse : string -> option datetime.

(** A search whose fetch raises: nothing is rendered, the exception goes
    up. *)
Lemma search_now_fetch_raises (search category : string) (max_results : Z)
      (fav_name : string) (save_clicked : bool) (pg : Page) (e : exn) (w1 : World) :
  fetch_vinted_items upstream parse search category max_results (world pg) = (Raise e, w1) ->
  search_now upstream parse search category max_results fav_name save_clicked pg
  = (Raise e, mkPage w1 (rendered pg)).
Proof. intros Hfetch. unfold search_now, ui_bind, call. by rewrite Hfetch. Qed.

(** A search whose fetch returns, when the snapshot cannot be read. *)
Lemma search_now_unreadable (search category : string) (max_results : Z)
      (fav_name : string) (save_clicked : bool) (pg : Page) (df : DataFrame) (w1 : World) :
  fetch_vinted_items upstream parse search category max_results (world pg) = (Ok df, w1) ->
  previous_results_csv (world pg) = Some NoColumns ->
  search_now upstream parse search category max_results fav_name save_clicked pg
  = (Raise EmptyDataError, mkPage w1 (rendered pg)).
Proof.
  intros Hfetch Hbad.
  destruct (fetch_ok_table _ _ _ _ _ _ _ _ Hfetch) as (cur & -> & Hne).
  destruct (fetch_files_unchanged _ _ _ _ _ _ _ _ Hfetch) as [_ Hprev].
  rewrite Hbad in Hprev.
  unfold search_now. unfold ui_bind at 1. unfold call at 1. rewrite Hfetch.
  cbn [DataFrame_empty]. rewrite bool_decide_eq_false_2 by done. cbn [negb].
  unfold ui_bind at 1. unfold call at 1. cbn [world].
  by rewrite (detect_new_items_unreadable (Table cur) w1 Hprev).
Qed.

(** A search whose fetch returns, when the snapshot can be read. *)
Lemma search_now_readable (search category : string) (max_results : Z)
      (fav_name : string) (save_clicked : bool) (pg : Page) (cur : list Listing) (w1 : World) :
  fetch_vinted_items upstream parse search category max_results (world pg)
  = (Ok (Table cur), w1) ->
  snapshot_readable (world pg) ->
  search_now upstream parse search category max_results fav_name save_clicked pg
  = (Ok tt,
     mkPage (world_after_search w1 cur search category fav_name save_clicked)
            (rendered pg ++ search_widgets cur (unseen (world pg) cur) fav_name save_clicked)).
Proof.
  intros Hfetch Hread.
  destruct (fetch_ok_table _ _ _ _ _ _ _ _ Hfetch) as (cur' & [= <-] & Hne).
  destruct (fetch_files_unchanged _ _ _ _ _ _ _ _ Hfetch) as [_ Hprev].
  assert (snapshot_readable w1) as Hread1 by (unfold snapshot_readable; by rewrite Hprev).
  unfold unseen. rewrite <- (snapshot_ids_files _ _ Hprev).
  unfold search_now. unfold ui_bind at 1. unfold call at 1. rewrite Hfetch.
  cbn [DataFrame_empty]. rewrite bool_decide_eq_false_2 by done. cbn [negb].
  unfold ui_bind at 1. unfold call at 1. cbn [world].
  rewrite (detect_new_items_readable cur w1 Hread1).
  unfold search_widgets, world_after_search.
  set (new := filter (fun r => ID r ∉ snapshot_ids w1) cur).
  unfold ui_bind, render, call, ui_ret, drop_Created_column, ret, save_favorite, bind,
    load_favorites, dump_favorites, favorites_of.
  cbn [DataFrame_empty DataFrame_len world rendered].
  destruct (bool_decide (new = [])); destruct (bool_decide (fav_name <> "")); destruct save_clicked;
    cbn [negb andb world rendered favorites_json previous_results_csv requests_sent errors_shown];
    try destruct (favorites_json w1);
    cbn [world rendered favorites_json previous_results_csv requests_sent errors_shown default];
    rewrite <- ?app_assoc; reflexivity.
Qed.

End PageProperties.

Section FavoriteRun.

Variable upstream : Request -> Response.
Variable parse : string -> option datetime.

Lemma run_favorite_fetch_raises (name : string) (q : SearchQuery) (pg : Page)
      (e : exn) (w1 : World) :
  fetch_vinted_items upstream parse (search q) (category q) 100 (world pg) = (Raise e, w1) ->
  run_favorite upstream parse name q pg = (Raise e, mkPage w1 (rendered pg)).
Proof. intros Hfetch. unfold run_favorite, ui_bind, call. by rewrite Hfetch. Qed.

Lemma run_favorite_unreadable (name : string) (q : SearchQuery) (pg : Page)
      (df : DataFrame) (w1 : World) :
  fetch_vinted_items upstream parse (search q) (category q) 100 (world pg) = (Ok df, w1) ->
  previous_results_csv (world pg) = Some NoColumns ->
  run_favorite upstream parse name q pg = (Raise EmptyDataError, mkPage w1 (rendered pg)).
Proof.
  intros Hfetch Hbad.
  destruct (fetch_files_unchanged _ _ _ _ _ _ _ _ Hfetch) as [_ Hprev].
  rewrite Hbad in Hprev.
  unfold run_favorite. unfold ui_bind at 1. unfold call at 1. rewrite Hfetch.
  unfold ui_bind at 1. unfold call at 1. cbn [world].
  by rewrite (detect_new_items_unreadable df w1 Hprev).
Qed.

Lemma run_favorite_readable (name : string) (q : SearchQuery) (pg : Page)
      (cur : list Listing) (w1 : World) :
  fetch_vinted_items upstream parse (search q) (category q) 100 (world pg)
  = (Ok (Table cur), w1) ->
  snapshot_readable (world pg) ->
  run_favorite upstream parse name q pg
  = (Ok tt,
     mkPage (mkWorld (favorites_json w1) (Some (Table cur)) (requests_sent w1) (errors_shown w1))
            (rendered pg ++ [Write_results_for name (search q);
                             Write_new_count (length (unseen (world pg) cur));
                             Dataframe (drop_Created <$> unseen (world pg) cur)])).
Proof.
  intros Hfetch Hread.
  destruct (fetch_files_unchanged _ _ _ _ _ _ _ _ Hfetch) as [_ Hprev].
  assert (snapshot_readable w1) as Hread1 by (unfold snapshot_readable; by rewrite Hprev).
  unfold unseen. rewrite <- (snapshot_ids_files _ _ Hprev).
  unfold run_favorite. unfold ui_bind at 1. unfold call at 1. rewrite Hfetch.
  unfold ui_bind at 1. unfold call at 1. cbn [world].
  rewrite (detect_new_items_readable cur w1 Hread1).
  unfold ui_bind, render, call, drop_Created_column, ret.
  cbn [DataFrame_len world rendered]. rewrite <- !app_assoc. reflexivity.
Qed.

End FavoriteRun.

(** X15: a search whose fetch returns the rows [cur], with a readable
    snapshot, shows the number of rows, then the number and the table of the
    rows whose identifier is not in the snapshot (or that there is none),
    then the download of all rows, and the confirmation when the favorite
    was saved; it leaves [cur] as the snapshot. *)
Theorem search_shows_total_and_new
        (upstream : Request -> Response) (parse : string -> option datetime)
        (search category : string) (max_results : Z) (fav_name : string)
        (save_clicked : bool) (pg : Page) (cur : list Listing) (w1 : World) :
  fetch_vinted_items upstream parse search category max_results (world pg)
  = (Ok (Table cur), w1) ->
  snapshot_readable (world pg) ->
  search_now upstream parse search category max_results fav_name save_clicked pg
  = (Ok tt,
     mkPage (world_after_search w1 cur search category fav_name save_clicked)
            (rendered pg ++ search_widgets cur (unseen (world pg) cur) fav_name save_clicked)).
Proof. apply search_now_readable. Qed.

Lemma search_shows_total_and_new_witness :
  search_now fails_after_first_page digits_parser "iPhone" "All" 100 "phones" true
             (mkPage (mkWorld None (Some (Table [sample_listing 1])) [] []) [])
  = (Ok tt,
     mkPage (mkWorld (Some {[ "phones" := mkSearchQuery "iPhone" "All" ]})
                     (Some (Table [sample_listing 1; sample_listing 2]))
                     [mkRequest "iPhone" 50 1 None; mkRequest "iPhone" 50 2 None]
                     ["Failed to fetch data: timeout"])
            [Success_total 2; Info_new 1; Dataframe [drop_Created (sample_listing 2)];
             Download_all (Table [sample_listing 1; sample_listing 2]);
             Success_saved "phones"]).
Proof.
  pose proof (search_shows_total_and_new
                fails_after_first_page digits_parser "iPhone" "All" 100 "phones" true
                (mkPage (mkWorld None (Some (Table [sample_listing 1])) [] []) [])
                [sample_listing 1; sample_listing 2]
                (mkWorld None (Some (Table [sample_listing 1]))
                         [mkRequest "iPhone" 50 1 None; mkRequest "iPhone" 50 2 None]
                         ["Failed to fetch data: timeout"])
                eq_refl ltac:(discriminate)) as Hrun.
  rewrite Hrun. reflexivity.
Defined.

(** X16: a search never shows "No listings found.": a fetch that returns
    has at least one row, and one that has none raises before the test of
    line 119. Whatever is rendered comes after what was on the page. *)
Theorem search_never_reports_no_listings
        (upstream : Request -> Response) (parse : string -> option datetime)
        (search category : string) (max_results : Z) (fav_name : string)
        (save_clicked : bool) (pg : Page) :
  exists out,
    rendered (search_now upstream parse search category max_results
                         fav_name save_clicked pg).2
    = rendered pg ++ out /\
    Warning_no_listings ∉ out.
Proof.
  destruct (fetch_vinted_items upstream parse search category max_results (world pg))
    as [[df|e] w1] eqn:Hfetch.
  - destruct (fetch_ok_table _ _ _ _ _ _ _ _ Hfetch) as (cur & -> & Hne).
    destruct (previous_results_csv (world pg)) as [[|prev]|] eqn:Hprev.
    + rewrite (search_now_unreadable _ _ _ _ _ _ _ _ _ _ Hfetch Hprev).
      exists []. split; [by rewrite app_nil_r|apply not_elem_of_nil].
    + rewrite (search_now_readable _ _ _ _ _ _ _ _ _ _ Hfetch)
        by (unfold snapshot_readable; by rewrite Hprev).
      eexists. split; [reflexivity|]. unfold search_widgets.
      destruct (bool_decide _), (bool_decide _ && _); simpl; intros Hin;
        repeat (apply elem_of_cons in Hin as [Hin|Hin]; [discriminate|]);
        by apply elem_of_nil in Hin.
    + rewrite (search_now_readable _ _ _ _ _ _ _ _ _ _ Hfetch)
        by (unfold snapshot_readable; by rewrite Hprev).
      eexists. split; [reflexivity|]. unfold search_widgets.
      destruct (bool_decide _), (bool_decide _ && _); simpl; intros Hin;
        repeat (apply elem_of_cons in Hin as [Hin|Hin]; [discriminate|]);
        by apply elem_of_nil in Hin.
  - rewrite (search_now_fetch_raises _ _ _ _ _ _ _ _ _ _ Hfetch).
    exists []. split; [by rewrite app_nil_r|apply not_elem_of_nil].
Qed.

(** X17: a search writes the favorites file only in a run where the name
    typed is not empty and the "Save Favorite" button reports a click: with
    an empty name or without that click the file is as before, whatever the
    fetch and the comparison did. *)
Theorem favorites_written_only_on_save
        (upstream : Request -> Response) (parse : string -> option datetime)
        (search category : string) (max_results : Z) (fav_name : string)
        (save_clicked : bool) (pg : Page) :
  fav_name = "" \/ save_clicked = false ->
  favorites_json (world (search_now upstream parse search category max_results
                                    fav_name save_clicked pg).2)
  = favorites_json (world pg).
Proof.
  intros Hno.
  assert (bool_decide (fav_name <> "") && save_clicked = false) as Hsave.
  { destruct Hno as [-> | ->]; [reflexivity|apply andb_false_r]. }
  destruct (fetch_vinted_items upstream parse search category max_results (world pg))
    as [[df|e] w1] eqn:Hfetch;
    destruct (fetch_files_unchanged _ _ _ _ _ _ _ _ Hfetch) as [Hfav _].
  - destruct (fetch_ok_table _ _ _ _ _ _ _ _ Hfetch) as (cur & -> & Hne).
    destruct (previous_results_csv (world pg)) as [[|prev]|] eqn:Hprev.
    + by rewrite (search_now_unreadable _ _ _ _ _ _ _ _ _ _ Hfetch Hprev).
    + rewrite (search_now_readable _ _ _ _ _ _ _ _ _ _ Hfetch)
        by (unfold snapshot_readable; by rewrite Hprev).
      unfold world_after_search. simpl. by rewrite Hsave.
    + rewrite (search_now_readable _ _ _ _ _ _ _ _ _ _ Hfetch)
        by (unfold snapshot_readable; by rewrite Hprev).
      unfold world_after_search. simpl. by rewrite Hsave.
  - by rewrite (search_now_fetch_raises _ _ _ _ _ _ _ _ _ _ Hfetch).
Qed.

Lemma favorites_written_only_on_save_witness :
  favorites_json (world (search_now fails_after_first_page digits_parser "iPhone" "All" 100
                                    "phones" false (mkPage fresh_world [])).2)
  = favorites_json (world (mkPage fresh_world [])).
Proof. apply favorites_written_only_on_save. by right. Defined.

(** X18: running the same favorite twice in a row against an upstream that
    answers the same: when the first run succeeds, the second succeeds too
    and reports 0 new listings with an empty table, and it leaves the
    snapshot as the first run wrote it. *)
Theorem favorite_run_twice_shows_nothing_new
        (upstream : Request -> Response) (parse : string -> option datetime)
        (name : string) (q : SearchQuery) (pg pg1 : Page) :
  run_favorite upstream parse name q pg = (Ok tt, pg1) ->
  exists w2,
    run_favorite upstream parse name q pg1
    = (Ok tt, mkPage w2 (rendered pg1 ++ [Write_results_for name (search q);
                                          Write_new_count 0; Dataframe []])) /\
    previous_results_csv w2 = previous_results_csv (world pg1).
Proof.
  intros Hfirst.
  destruct (fetch_vinted_items upstream parse (search q) (category q) 100 (world pg))
    as [[df|e] w1] eqn:Hfetch.
  2: { by rewrite (run_favorite_fetch_raises _ _ _ _ _ _ _ Hfetch) in Hfirst. }
  destruct (fetch_ok_table _ _ _ _ _ _ _ _ Hfetch) as (cur & -> & Hne).
  destruct (previous_results_csv (world pg)) as [[|prev]|] eqn:Hprev.
  { by rewrite (run_favorite_unreadable _ _ _ _ _ _ _ Hfetch Hprev) in Hfirst. }
  all: rewrite (run_favorite_readable _ _ _ _ _ _ _ Hfetch) in Hfirst
    by (unfold snapshot_readable; by rewrite Hprev).
  all: injection Hfirst as <-.
  all: match goal with
       | |- context [run_favorite _ _ _ _ ?p] => set (pg1 := p)
       end.
  all: pose proof (fetch_result_indep upstream parse (search q) (category q) 100
                     (world pg) (world pg1)) as Hsame.
  all: rewrite Hfetch in Hsame.
  all: destruct (fetch_vinted_items upstream parse (search q) (category q) 100 (world pg1))
    as [r2 w2] eqn:Hfetch2.
  all: simpl in Hsame; subst r2.
  all: exists (mkWorld (favorites_json w2) (Some (Table cur)) (requests_sent w2) (errors_shown w2)).
  all: rewrite (run_favorite_readable _ _ _ _ _ _ _ Hfetch2) by discriminate.
  all: assert (unseen (world pg1) cur = []) as ->.
  1, 3: (apply filter_none; intros r Hr Hnew; apply Hnew; simpl;
         apply list_elem_of_fmap; by exists r).
  all: split; reflexivity.
Qed.

Lemma favorite_run_twice_shows_nothing_new_witness :
  let q := mkSearchQuery "iPhone" "All" in
  let pg1 := (run_favorite fails_after_first_page digits_parser "phones" q
                           (mkPage fresh_world [])).2 in
  exists w2,
    run_favorite fails_after_first_page digits_parser "phones" q pg1
    = (Ok tt, mkPage w2 (rendered pg1 ++ [Write_results_for "phones" (search q);
                                          Write_new_count 0; Dataframe []])) /\
    previous_results_csv w2 = previous_results_csv (world pg1).
Proof.
  apply (favorite_run_twice_shows_nothing_new
           fails_after_first_page digits_parser "phones" (mkSearchQuery "iPhone" "All")
           (mkPage fresh_world [])).
  reflexivity.
Defined.

(** X19: no run of a search or of a favorite makes the snapshot unreadable:
    from a world whose snapshot is absent or a table of listings, the world
    after the run, returned or raised, has such a snapshot too. *)
Theorem runs_keep_the_snapshot_readable
        (upstream : Request -> Response) (parse : string -> option datetime)
        (term cat : string) (max_results : Z) (fav_name : string)
        (save_clicked : bool) (name : string) (q : SearchQuery) (pg : Page) :
  snapshot_readable (world pg) ->
  snapshot_readable (world (search_now upstream parse term cat max_results
                                       fav_name save_clicked pg).2) /\
  snapshot_readable (world (run_favorite upstream parse name q pg).2).
Proof.
  intros Hread. split.
  - destruct (fetch_vinted_items upstream parse term cat max_results (world pg))
      as [[df|e] w1] eqn:Hfetch;
      destruct (fetch_files_unchanged _ _ _ _ _ _ _ _ Hfetch) as [_ Hprev].
    + destruct (fetch_ok_table _ _ _ _ _ _ _ _ Hfetch) as (cur & -> & Hne).
      rewrite (search_now_readable _ _ _ _ _ _ _ _ _ _ Hfetch Hread). discriminate.
    + rewrite (search_now_fetch_raises _ _ _ _ _ _ _ _ _ _ Hfetch).
      unfold snapshot_readable. simpl. by rewrite Hprev.
  - destruct (fetch_vinted_items upstream parse (search q) (category q) 100 (world pg))
      as [[df|e] w1] eqn:Hfetch;
      destruct (fetch_files_unchanged _ _ _ _ _ _ _ _ Hfetch) as [_ Hprev].
    + destruct (fetch_ok_table _ _ _ _ _ _ _ _ Hfetch) as (cur & -> & Hne).
      rewrite (run_favorite_readable _ _ _ _ _ _ _ Hfetch Hread). discriminate.
    + rewrite (run_favorite_fetch_raises _ _ _ _ _ _ _ Hfetch).
      unfold snapshot_readable. simpl. by rewrite Hprev.
Qed.

Lemma runs_keep_the_snapshot_readable_witness :
  snapshot_readable
    (world (search_now full_pages digits_parser "iPhone" "All" 100 "" false
                       (mkPage fresh_world [])).2) /\
  snapshot_readable
    (world (run_favorite full_pages digits_parser "phones" (mkSearchQuery "iPhone" "Men")
                         (mkPage fresh_world [])).2).
Proof. apply runs_keep_the_snapshot_readable. discriminate. Defined.
